(** * Live-reload core of the markdown preview server

    A shallow embedding of [src/watcher/file-watcher.ts], [src/index.ts],
    [src/config.ts] and [src/markdown/renderer.ts], and the properties of
    the connection registry, the rebuild coordinator, the change watcher
    and the reload orchestrator stated against it.

    JavaScript objects with mutable fields become records threaded through
    a state monad; a [throw] and [process.exit] become outcomes of a
    computation; a closure handed to another component is a value of a
    callback type, run by an interpreter on the state it can reach, and
    each call of one is recorded, so that "was the callback invoked" is a
    question about the state. *)

From Stdlib Require Import String Ascii List ZArith Bool Arith Lia DecimalString.
Import ListNotations.
Open Scope string_scope.

(* ================================================================= *)
(** ** The runtime: outcomes, effects and the state monad *)

(** An express [Response] is compared by reference ([indexOf] uses [===]),
    so a channel is its identity and nothing else. *)
Definition Response := nat.

(** Exceptions raised by the collaborators the program calls. *)
Inductive exn : Type :=
| WriteFailed (client : Response)   (* client.write(...) threw *)
| ReadFailed (path : string)        (* readFileSync(...) threw *)
| LibraryFailed (what : string).    (* marked / highlight.js threw *)

(** How a piece of code ends: it returns, it throws, or it calls
    [process.exit], which no [catch] intercepts. *)
Inductive outcome (A : Type) : Type :=
| Returned (a : A)
| Thrown (e : exn)
| Exited (code : Z).
Arguments Returned {A} a.
Arguments Thrown {A} e.
Arguments Exited {A} code.

(** What the program does to the outside. *)
Inductive effect : Type :=
| ConsoleLog (line : string)
| ConsoleError (line : string)
| ResWrite (client : Response) (chunk : string)
| Spawn (pid : nat) (command : string) (args : list string) (cwd : string)
| StdoutWrite (data : string)
| StderrWrite (data : string).

Definition ST (S A : Type) : Type := S -> outcome A * S.

Definition ret {S A} (a : A) : ST S A := fun s => (Returned a, s).

Definition bind {S A B} (m : ST S A) (f : A -> ST S B) : ST S B :=
  fun s =>
    match m s with
    | (Returned a, s') => f a s'
    | (Thrown e, s') => (Thrown e, s')
    | (Exited c, s') => (Exited c, s')
    end.

Definition throw {S A} (e : exn) : ST S A := fun s => (Thrown e, s).
Definition process_exit {S A} (code : Z) : ST S A := fun s => (Exited code, s).

(** [try { body } catch (error) { handler(error) }] *)
Definition try_catch {S A} (body : ST S A) (handler : exn -> ST S A) : ST S A :=
  fun s =>
    match body s with
    | (Thrown e, s') => handler e s'
    | r => r
    end.

Definition gets {S A} (f : S -> A) : ST S A := fun s => (Returned (f s), s).
Definition modify {S} (f : S -> S) : ST S unit := fun s => (Returned tt, f s).

(** Runs a computation on a component [get] of a larger state. *)
Definition lift {S T A} (get : T -> S) (set : S -> T -> T) (m : ST S A) : ST T A :=
  fun t => let (o, s') := m (get t) in (o, set s' t).

Declare Scope js_scope.
Delimit Scope js_scope with js.
Notation "x <- m ;; k" := (bind m (fun x => k))
  (at level 61, m at next level, right associativity) : js_scope.
Notation "m ;; k" := (bind m (fun _ => k))
  (at level 61, right associativity) : js_scope.
Open Scope js_scope.

(** [array.forEach(f)]: the calls are made in index order and the first
    one that throws ends the loop with its exception. *)
Fixpoint forEach {S A} (f : A -> ST S unit) (l : list A) : ST S unit :=
  match l with
  | [] => ret tt
  | x :: rest => f x ;; forEach f rest
  end.

(** Template-literal and [+] conversion of numbers. *)
Definition show_nat (n : nat) : string := NilZero.string_of_uint (Nat.to_uint n).
Definition show_Z (z : Z) : string := NilZero.string_of_int (Z.to_int z).

(** The exit code handed to a ['close'] listener: a number, or [null] when
    the child was ended by a signal. *)
Definition exit_code := option Z.
Definition show_code (code : exit_code) : string :=
  match code with Some z => show_Z z | None => "null" end.

Definition LF : string := String (ascii_of_nat 10) "".

(** [String.prototype.endsWith]. *)
Definition endsWith (s suffix : string) : bool :=
  let n := String.length s in
  let m := String.length suffix in
  if Nat.leb m n then String.eqb (substring (n - m) m s) suffix else false.

(* ================================================================= *)
(** ** [src/config.ts] *)

Module SERVER_CONFIG.
Definition PORT : Z := 4002.
End SERVER_CONFIG.

Module PATHS.
Definition SRC := "../src".
End PATHS.

Module SSE_CONFIG.
Definition CONTENT_TYPE := "text/event-stream".
Definition CACHE_CONTROL := "no-cache".
Definition CONNECTION := "keep-alive".
Definition RELOAD_MESSAGE := "data: reload" ++ LF ++ LF.
End SSE_CONFIG.

Module MESSAGES.
Definition ERROR_NO_FILE := "Error: Please provide a markdown file path as argument".
Definition USAGE := "Usage: npm start <path-to-markdown-file.md>".
Definition ERROR_LOADING_FILE := "<p>Error loading markdown file</p>".
Definition REBUILD_IN_PROGRESS := "Rebuild already in progress, skipping...".
Definition REBUILDING := LF ++ "Rebuilding TypeScript...".
Definition REBUILD_COMPLETE := "✓ Rebuild complete! Reloading browser...".
Definition REBUILD_FAILED_PREFIX := "✗ Rebuild failed with code ".
Definition FILE_CHANGED_PREFIX := LF ++ "📝 Markdown file changed: ".
Definition SOURCE_CHANGED_PREFIX := LF ++ "🔧 Source file changed: ".
Definition WATCH_MODE_ENABLED :=
  "🔄 Watch mode enabled: TypeScript will auto-rebuild on changes".
Definition OPENING_BROWSER := "🚀 Opening browser at ".
End MESSAGES.

(** [FILE_WATCHER_OPTIONS.ignored], the regular expression
    [/(^|[/\\])\../]: at the start of the path or right after a [/] or a
    [\], a dot followed by one more character that [.] accepts.  A path is
    the UTF-8 text of the JavaScript string; [.] refuses the line
    terminators LF, CR, U+2028 and U+2029. *)
Module FILE_WATCHER_OPTIONS.
Definition persistent := true.
Definition ignoreInitial := true.

Definition is_separator (c : ascii) : bool :=
  Ascii.eqb c "/"%char || Ascii.eqb c "\"%char.

Definition starts_with_line_terminator (s : string) : bool :=
  match s with
  | String c rest =>
      Nat.eqb (nat_of_ascii c) 10 || Nat.eqb (nat_of_ascii c) 13 ||
      match rest with
      | String c1 (String c2 _) =>
          Nat.eqb (nat_of_ascii c) 226 && Nat.eqb (nat_of_ascii c1) 128 &&
          (Nat.eqb (nat_of_ascii c2) 168 || Nat.eqb (nat_of_ascii c2) 169)
      | _ => false
      end
  | EmptyString => false
  end.

(** [\..] tried at the head of [s]. *)
Definition dot_any (s : string) : bool :=
  match s with
  | String c rest =>
      Ascii.eqb c "."%char &&
      match rest with
      | EmptyString => false
      | _ => negb (starts_with_line_terminator rest)
      end
  | EmptyString => false
  end.

(** The search for a match after the first position: [after_sep] tells
    whether the character before the head of [s] is a separator. *)
Fixpoint ignored_from (after_sep : bool) (s : string) : bool :=
  (after_sep && dot_any s) ||
  match s with
  | String c rest => ignored_from (is_separator c) rest
  | EmptyString => false
  end.

(** [ignored.test(path)] *)
Definition ignored (path : string) : bool := ignored_from true path.
End FILE_WATCHER_OPTIONS.

(* ================================================================= *)
(** ** The state the callbacks can reach *)

(** The module-level variables of [index.ts] ([clientManager] with its
    private [clients] array, and [currentHtmlContent], [undefined] until
    first assigned), whether [marked] has been given the custom renderer,
    the surroundings (which files can be read and with what content, which
    channels throw when written to) and the effects performed so far, the
    most recent first. *)
Record Shared : Type := mkShared {
  clients : list Response;
  currentHtmlContent : option string;
  markedConfigured : bool;
  fs : string -> option string;
  write_throws : Response -> bool;
  effects : list effect
}.

Definition set_clients (cs : list Response) (s : Shared) : Shared :=
  mkShared cs (currentHtmlContent s) (markedConfigured s) (fs s) (write_throws s) (effects s).
Definition set_currentHtmlContent (html : string) (s : Shared) : Shared :=
  mkShared (clients s) (Some html) (markedConfigured s) (fs s) (write_throws s) (effects s).
Definition set_markedConfigured (b : bool) (s : Shared) : Shared :=
  mkShared (clients s) (currentHtmlContent s) b (fs s) (write_throws s) (effects s).
Definition emit (e : effect) (s : Shared) : Shared :=
  mkShared (clients s) (currentHtmlContent s) (markedConfigured s) (fs s) (write_throws s)
           (e :: effects s).

Definition M (A : Type) : Type := ST Shared A.

Definition console_log (line : string) : M unit := modify (emit (ConsoleLog line)).
Definition console_error (line : string) : M unit := modify (emit (ConsoleError line)).

(** [client.write(chunk)]: throws on a channel that is broken, and is
    otherwise recorded. *)
Definition res_write (client : Response) (chunk : string) : M unit :=
  fun s =>
    if write_throws s client then (Thrown (WriteFailed client), s)
    else (Returned tt, emit (ResWrite client chunk) s).

(** [readFileSync(path, "utf-8")] *)
Definition readFileSync (path : string) : M string :=
  fun s =>
    match fs s path with
    | Some content => (Returned content, s)
    | None => (Thrown (ReadFailed path), s)
    end.

(** What [console.error(error)] prints for an exception. *)
Definition describe (e : exn) : string :=
  match e with
  | WriteFailed c => "Error: write failed on channel " ++ show_nat c
  | ReadFailed p => "Error: cannot read '" ++ p ++ "'"
  | LibraryFailed w => "Error: " ++ w
  end.

(** The packages the program imports: [path], [marked], [highlight.js]. *)
Record Libs : Type := mkLibs {
  path_join : string -> string -> string;
  marked_parse : (string -> option string -> bool -> M string) -> string -> M string;
  originalCodeRenderer : string -> option string -> bool -> M string;
  hljs_getLanguage : string -> bool;
  hljs_highlight : string -> string -> M string
}.

(* ================================================================= *)
(** ** [src/watcher/file-watcher.ts]: [ClientManager] *)

Module ClientManager.

(** [Array.prototype.indexOf]: the first index holding [x], or [-1]. *)
Fixpoint indexOf (l : list Response) (x : Response) : Z :=
  match l with
  | [] => (-1)%Z
  | y :: rest =>
      if Nat.eqb y x then 0%Z
      else let i := indexOf rest x in
           if (i =? -1)%Z then (-1)%Z else (i + 1)%Z
  end.

(** [array.splice(index, 1)] for an index within the array. *)
Definition splice1 (index : Z) (l : list Response) : list Response :=
  firstn (Z.to_nat index) l ++ skipn (S (Z.to_nat index)) l.

Definition addClient (client : Response) : M unit :=
  modify (fun s => set_clients (clients s ++ [client]) s).

Definition removeClient (client : Response) : M unit :=
  cs <- gets clients ;;
  let index := indexOf cs client in
  if negb (index =? -1)%Z
  then modify (set_clients (splice1 index cs))
  else ret tt.

Definition notifyReload : M unit :=
  cs <- gets clients ;;
  console_log ("Notifying " ++ show_nat (List.length cs)
               ++ " connected client(s) to reload...") ;;
  forEach (fun client => res_write client ("data: reload" ++ LF ++ LF)) cs.

Definition getClientCount : M Z :=
  cs <- gets clients ;;
  ret (Z.of_nat (List.length cs)).

End ClientManager.

(** A registry nobody has touched yet, in given surroundings. *)
Definition fresh_shared (files : string -> option string)
           (broken : Response -> bool) : Shared :=
  mkShared [] None false files broken [].

(* ================================================================= *)
(** ** The whole process *)

(** A spawned [npx tsc] whose ['close'] event has not fired yet, with the
    [onSuccess] its listener captured. *)
Record Child (K : Type) : Type := mkChild {
  child_pid : nat;
  child_cwd : string;
  child_onSuccess : K
}.
Arguments mkChild {K}.
Arguments child_pid {K}.
Arguments child_cwd {K}.
Arguments child_onSuccess {K}.

(** The state of the process, [K] being the type of the callbacks handed
    between components.  A callback runs on [Shared] and so cannot reach
    the private fields kept here.

    - [isRebuilding]: the private field of [TypeScriptRebuilder];
    - [children], [nextPid]: the children the operating system runs for it;
    - [invoked]: the callbacks called so far, the most recent first;
    - [markdownWatcher], [sourceWatcher]: the private fields of
      [FileWatcher], holding what the ['change'] listener captured;
    - [listening]: the port [app.listen] was called with;
    - [argv], [cwd], [dirname], [WATCH_MODE]: [process.argv],
      [process.cwd()], [__dirname], [process.env.WATCH_MODE]. *)
Record World (K : Type) : Type := mkWorld {
  shared : Shared;
  isRebuilding : bool;
  children : list (Child K);
  nextPid : nat;
  invoked : list K;
  markdownWatcher : option (string * K);
  sourceWatcher : option (string * string);
  listening : option Z;
  argv : list string;
  cwd : string;
  dirname : string;
  WATCH_MODE : option string
}.
Arguments mkWorld {K}.
Arguments shared {K}.
Arguments isRebuilding {K}.
Arguments children {K}.
Arguments nextPid {K}.
Arguments invoked {K}.
Arguments markdownWatcher {K}.
Arguments sourceWatcher {K}.
Arguments listening {K}.
Arguments argv {K}.
Arguments cwd {K}.
Arguments dirname {K}.
Arguments WATCH_MODE {K}.

Section WorldUpdates.
Context {K : Type}.

Definition set_shared (s : Shared) (w : World K) : World K :=
  mkWorld s (isRebuilding w) (children w) (nextPid w) (invoked w)
          (markdownWatcher w) (sourceWatcher w) (listening w)
          (argv w) (cwd w) (dirname w) (WATCH_MODE w).
Definition set_isRebuilding (b : bool) (w : World K) : World K :=
  mkWorld (shared w) b (children w) (nextPid w) (invoked w)
          (markdownWatcher w) (sourceWatcher w) (listening w)
          (argv w) (cwd w) (dirname w) (WATCH_MODE w).
Definition set_children (cs : list (Child K)) (w : World K) : World K :=
  mkWorld (shared w) (isRebuilding w) cs (nextPid w) (invoked w)
          (markdownWatcher w) (sourceWatcher w) (listening w)
          (argv w) (cwd w) (dirname w) (WATCH_MODE w).
Definition set_nextPid (n : nat) (w : World K) : World K :=
  mkWorld (shared w) (isRebuilding w) (children w) n (invoked w)
          (markdownWatcher w) (sourceWatcher w) (listening w)
          (argv w) (cwd w) (dirname w) (WATCH_MODE w).
Definition record_call (k : K) (w : World K) : World K :=
  mkWorld (shared w) (isRebuilding w) (children w) (nextPid w) (k :: invoked w)
          (markdownWatcher w) (sourceWatcher w) (listening w)
          (argv w) (cwd w) (dirname w) (WATCH_MODE w).
Definition set_markdownWatcher (m : option (string * K)) (w : World K) : World K :=
  mkWorld (shared w) (isRebuilding w) (children w) (nextPid w) (invoked w)
          m (sourceWatcher w) (listening w)
          (argv w) (cwd w) (dirname w) (WATCH_MODE w).
Definition set_sourceWatcher (m : option (string * string)) (w : World K) : World K :=
  mkWorld (shared w) (isRebuilding w) (children w) (nextPid w) (invoked w)
          (markdownWatcher w) m (listening w)
          (argv w) (cwd w) (dirname w) (WATCH_MODE w).
Definition set_listening (port : Z) (w : World K) : World K :=
  mkWorld (shared w) (isRebuilding w) (children w) (nextPid w) (invoked w)
          (markdownWatcher w) (sourceWatcher w) (Some port)
          (argv w) (cwd w) (dirname w) (WATCH_MODE w).

Definition P (A : Type) : Type := ST (World K) A.

(** A computation on the shared state, run inside the process. *)
Definition sh {A} (m : M A) : P A := lift shared set_shared m.

(** Calling a callback [k]: the call is recorded, then its body
    [call k] runs. *)
Definition invoke (call : K -> M unit) (k : K) : P unit :=
  modify (record_call k) ;; sh (call k).

(** A process just started: nothing rebuilt, watched or served yet. *)
Definition boot (s : Shared) (args : list string) (workdir scriptdir : string)
           (watch : option string) : World K :=
  mkWorld s false [] 0 [] None None None args workdir scriptdir watch.
End WorldUpdates.

(* ================================================================= *)
(** ** [src/watcher/file-watcher.ts]: [TypeScriptRebuilder] *)

Module TypeScriptRebuilder.
Section Methods.
Context {K : Type}.
Variable call : K -> M unit.

(** [code === 0] *)
Definition is_zero (code : exit_code) : bool :=
  match code with
  | Some z => (z =? 0)%Z
  | None => false
  end.

(** The listener [tsc.on("close", (code) => ...)] of a rebuild started
    with [onSuccess]. *)
Definition on_close (onSuccess : K) (code : exit_code) : P unit :=
  modify (set_isRebuilding false) ;;
  if is_zero code then
    sh (console_log MESSAGES.REBUILD_COMPLETE) ;;
    invoke call onSuccess
  else
    sh (console_log (MESSAGES.REBUILD_FAILED_PREFIX ++ show_code code)).

(** [spawn("npx", ["tsc"], { cwd: projectRoot, shell: true })] together
    with the three [on] calls that follow it in the same turn: the child
    is running from here on and carries its listeners. *)
Definition spawn_tsc (projectRoot : string) (onSuccess : K) : P nat :=
  pid <- gets nextPid ;;
  modify (set_nextPid (S pid)) ;;
  cs <- gets children ;;
  modify (set_children (cs ++ [mkChild pid projectRoot onSuccess])) ;;
  sh (modify (emit (Spawn pid "npx" ["tsc"] projectRoot))) ;;
  ret pid.

Definition rebuild (projectRoot : string) (onSuccess : K) : P unit :=
  rebuilding <- gets isRebuilding ;;
  if rebuilding then
    sh (console_log MESSAGES.REBUILD_IN_PROGRESS)
  else
    modify (set_isRebuilding true) ;;
    sh (console_log MESSAGES.REBUILDING) ;;
    _ <- spawn_tsc projectRoot onSuccess ;;
    ret tt.

(** What reaches the coordinator: a call of [rebuild], and the events of
    the children it spawned.  An event of a child that is not running
    (never spawned, or closed already) cannot occur and does nothing. *)
Inductive event : Type :=
| RebuildRequested (projectRoot : string) (onSuccess : K)
| ChildStdout (pid : nat) (data : string)
| ChildStderr (pid : nat) (data : string)
| ChildClosed (pid : nat) (code : exit_code).

Definition running (pid : nat) (w : World K) : option (Child K) :=
  find (fun c => Nat.eqb (child_pid c) pid) (children w).

Definition reap (pid : nat) (w : World K) : World K :=
  set_children (filter (fun c => negb (Nat.eqb (child_pid c) pid)) (children w)) w.

Definition handle (ev : event) : P unit :=
  match ev with
  | RebuildRequested projectRoot onSuccess => rebuild projectRoot onSuccess
  | ChildStdout pid data =>
      c <- gets (running pid) ;;
      match c with
      | Some _ => sh (modify (emit (StdoutWrite data)))
      | None => ret tt
      end
  | ChildStderr pid data =>
      c <- gets (running pid) ;;
      match c with
      | Some _ => sh (modify (emit (StderrWrite data)))
      | None => ret tt
      end
  | ChildClosed pid code =>
      c <- gets (running pid) ;;
      match c with
      | Some child => modify (reap pid) ;; on_close (child_onSuccess child) code
      | None => ret tt
      end
  end.

(** The states the coordinator goes through while a sequence of events
    is handled, the first one first.  A handler that throws is taken not
    to stop the events after it: were the process to end there, the
    states it had reached would still be among these. *)
Fixpoint history (evs : list event) (w : World K) : list (World K) :=
  w :: match evs with
       | [] => []
       | ev :: rest => history rest (snd (handle ev w))
       end.

(** The state once the whole sequence is handled. *)
Fixpoint after (evs : list event) (w : World K) : World K :=
  match evs with
  | [] => w
  | ev :: rest => after rest (snd (handle ev w))
  end.
End Methods.
End TypeScriptRebuilder.

(* ================================================================= *)
(** ** [src/markdown/renderer.ts] *)

Module Renderer.
Section WithLibs.
Variable L : Libs.

Definition DQ : string := String (ascii_of_nat 34) "".

(** [language === "mermaid"] for a [string | undefined]. *)
Definition is_mermaid (language : option string) : bool :=
  match language with
  | Some l => String.eqb l "mermaid"
  | None => false
  end.

(** The [renderer.code] installed by [createCodeRenderer]. *)
Definition code (code : string) (language : option string) (isEscaped : bool)
  : M string :=
  if is_mermaid language then
    ret ("<div class=" ++ DQ ++ "mermaid" ++ DQ ++ ">" ++ code ++ "</div>")
  else
    match language with
    | Some l =>
        if negb (String.eqb l "") && hljs_getLanguage L l then
          try_catch
            (highlighted <- hljs_highlight L code l ;;
             ret ("<pre><code class=" ++ DQ ++ "hljs language-" ++ l ++ DQ ++ ">"
                  ++ highlighted ++ "</code></pre>"))
            (fun err =>
               console_error ("Highlight error: " ++ describe err) ;;
               originalCodeRenderer L code language isEscaped)
        else originalCodeRenderer L code language isEscaped
    | None => originalCodeRenderer L code language isEscaped
    end.

Definition configureMarked : M unit := modify (set_markedConfigured true).

(** [marked.parse(content)] with the renderer the options hold. *)
Definition parseMarkdown (content : string) : M string :=
  configured <- gets markedConfigured ;;
  marked_parse L (if configured then code else originalCodeRenderer L) content.
End WithLibs.
End Renderer.

(* ================================================================= *)
(** ** [src/index.ts]: loading the content *)

Section LoadMarkdown.
Variable L : Libs.

Definition loadMarkdown (filePath : string) : M string :=
  try_catch
    (markdownContent <- readFileSync filePath ;;
     Renderer.parseMarkdown L markdownContent)
    (fun error =>
       console_error ("Error reading file: " ++ filePath) ;;
       console_error (describe error) ;;
       ret MESSAGES.ERROR_LOADING_FILE).
End LoadMarkdown.

(** The closures the program hands from one component to another. *)
Inductive Closure : Type :=
| ReloadAfterRebuild
    (* file-watcher.ts, watchSourceCode:
       () => { this.clientManager.notifyReload(); } *)
| RefreshContent (markdownFilePath : string).
    (* index.ts, setupFileWatching:
       () => { currentHtmlContent = loadMarkdown(markdownFilePath); } *)

Definition call_closure (L : Libs) (k : Closure) : M unit :=
  match k with
  | ReloadAfterRebuild => ClientManager.notifyReload
  | RefreshContent markdownFilePath =>
      html <- loadMarkdown L markdownFilePath ;;
      modify (set_currentHtmlContent html)
  end.

(* ================================================================= *)
(** ** [src/watcher/file-watcher.ts]: [FileWatcher] *)

Module FileWatcher.
Section WithLibs.
Variable L : Libs.

Definition watchMarkdownFile (filePath : string) (onChange : Closure)
  : P (K := Closure) unit :=
  modify (set_markdownWatcher (Some (filePath, onChange))).

(** The listener [this.markdownWatcher.on("change", (path) => ...)]. *)
Definition on_markdown_change (onChange : Closure) (path : string)
  : P (K := Closure) unit :=
  sh (console_log (MESSAGES.FILE_CHANGED_PREFIX ++ path)) ;;
  invoke (call_closure L) onChange ;;
  sh ClientManager.notifyReload.

Definition watchSourceCode (srcPath projectRoot : string)
  : P (K := Closure) unit :=
  modify (set_sourceWatcher (Some (srcPath, projectRoot))) ;;
  sh (console_log MESSAGES.WATCH_MODE_ENABLED).

(** [path.endsWith(".ts") || path.endsWith(".js")] *)
Definition is_source_path (path : string) : bool :=
  endsWith path ".ts" || endsWith path ".js".

(** The listener [this.sourceWatcher.on("change", (path) => ...)]. *)
Definition on_source_change (projectRoot : string) (path : string)
  : P (K := Closure) unit :=
  if is_source_path path then
    sh (console_log (MESSAGES.SOURCE_CHANGED_PREFIX ++ path)) ;;
    TypeScriptRebuilder.rebuild projectRoot ReloadAfterRebuild
  else ret tt.

(** A change of the watched markdown file, as chokidar reports it. *)
Definition markdown_file_changed : P (K := Closure) unit :=
  watcher <- gets markdownWatcher ;;
  match watcher with
  | Some (filePath, onChange) => on_markdown_change onChange filePath
  | None => ret tt
  end.

(** A change of [path] in the watched source tree.  chokidar raises no
    event for a path its [ignored] option matches, and calls the
    listener for the others. *)
Definition source_tree_changed (path : string) : P (K := Closure) unit :=
  watcher <- gets sourceWatcher ;;
  match watcher with
  | Some (_, projectRoot) =>
      if FILE_WATCHER_OPTIONS.ignored path then ret tt
      else on_source_change projectRoot path
  | None => ret tt
  end.
End WithLibs.
End FileWatcher.

(* ================================================================= *)
(** ** [src/index.ts]: the entry point *)

Module Index.
Section WithLibs.
Variable L : Libs.

Definition getMarkdownFilePath : P (K := Closure) string :=
  args <- gets (fun w => skipn 2 (argv w)) ;;
  match args with
  | [] =>
      sh (console_error MESSAGES.ERROR_NO_FILE) ;;
      sh (console_log MESSAGES.USAGE) ;;
      process_exit 1
  | arg0 :: _ =>
      here <- gets cwd ;;
      ret (path_join L here arg0)
  end.

(** The handler of [GET /events] and the ['close'] listener it installs. *)
Definition events_route (res : Response) : P (K := Closure) unit :=
  sh (ClientManager.addClient res).
Definition events_request_closed (res : Response) : P (K := Closure) unit :=
  sh (ClientManager.removeClient res).

Definition setupFileWatching (markdownFilePath : string) (watchMode : bool)
  : P (K := Closure) unit :=
  FileWatcher.watchMarkdownFile markdownFilePath (RefreshContent markdownFilePath) ;;
  if watchMode then
    here <- gets dirname ;;
    let srcPath := path_join L here PATHS.SRC in
    let projectRoot := path_join L here ".." in
    FileWatcher.watchSourceCode srcPath projectRoot
  else ret tt.

(** [process.env.WATCH_MODE === "true"] *)
Definition watch_mode (v : option string) : bool :=
  match v with
  | Some s => String.eqb s "true"
  | None => false
  end.

(** [main], up to and including the call of [app.listen]; the callback
    given to [listen] (the banner and the browser) comes later and is
    left out. *)
Definition main : P (K := Closure) unit :=
  sh (Renderer.configureMarked) ;;
  markdownFilePath <- getMarkdownFilePath ;;
  try_catch
    (html <- sh (loadMarkdown L markdownFilePath) ;;
     sh (modify (set_currentHtmlContent html)))
    (fun error =>
       sh (console_error ("Error reading file: " ++ markdownFilePath)) ;;
       sh (console_error (describe error)) ;;
       process_exit 1) ;;
  watchMode <- gets (fun w => watch_mode (WATCH_MODE w)) ;;
  setupFileWatching markdownFilePath watchMode ;;
  modify (set_listening SERVER_CONFIG.PORT).
End WithLibs.
End Index.

(* ================================================================= *)
(** ** [src/template/html-generator.ts] *)

Module UI_STRINGS.
Definition PAGE_TITLE := "Markdown Preview".
End UI_STRINGS.

Module HtmlGenerator.

Definition generateStyles : string :=
  "
    * {
      margin: 0;
      padding: 0;
      box-sizing: border-box;
    }

    body {
      font-family: -apple-system, BlinkMacSystemFont, 'Segoe UI', 'Roboto', 'Oxygen', 'Ubuntu', 'Cantarell', sans-serif;
      line-height: 1.6;
      color: #24292f;
      background-color: #f6f8fa;
      padding: 2rem;
    }

    .container {
      margin: 0 auto;
      background-color: #ffffff;
      padding: 3rem;
      border-radius: 8px;
      box-shadow: 0 1px 3px rgba(0, 0, 0, 0.12), 0 1px 2px rgba(0, 0, 0, 0.08);
    }

    h1, h2, h3, h4, h5, h6 {
      margin-top: 1.5rem;
      margin-bottom: 1rem;
      font-weight: 600;
      line-height: 1.25;
    }

    h1 {
      font-size: 2rem;
      border-bottom: 1px solid #d0d7de;
      padding-bottom: 0.5rem;
      color: #1a2c42;
    }

    h2 {
      font-size: 1.5rem;
      border-bottom: 1px solid #d0d7de;
      padding-bottom: 0.5rem;
      color: #2d4a6b;
    }

    h3 {
      font-size: 1.25rem;
      color: #3d5a7f;
    }

    h4 {
      font-size: 1rem;
      color: #556b85;
    }

    h5 {
      font-size: 0.875rem;
      color: #6b7b8f;
    }

    h6 {
      font-size: 0.85rem;
      color: #7d8a99;
    }

    p {
      margin-bottom: 1rem;
    }

    code {
      background-color: #f6f8fa;
      padding: 0.2rem 0.4rem;
      border-radius: 3px;
      font-family: 'Consolas', 'Monaco', 'Courier New', monospace;
      font-size: 0.9em;
      color: #24292f;
      border: 1px solid #d0d7de;
    }

    pre {
      background-color: #f6f8fa;
      padding: 1rem;
      border-radius: 6px;
      overflow-x: auto;
      margin-bottom: 1rem;
      border: 1px solid #d0d7de;
    }

    pre code {
      background-color: transparent;
      padding: 0;
      border-radius: 0;
      display: block;
      border: none;
    }

    a {
      color: #0969da;
      text-decoration: none;
    }

    a:hover {
      text-decoration: underline;
    }

    ul, ol {
      margin-bottom: 1rem;
      padding-left: 2rem;
    }

    li {
      margin-bottom: 0.25rem;
    }

    blockquote {
      border-left: 4px solid #d0d7de;
      padding-left: 1rem;
      margin-bottom: 1rem;
      color: #57606a;
      background-color: #f6f8fa;
      padding: 0.5rem 1rem;
      border-radius: 3px;
    }

    table {
      border-collapse: collapse;
      width: 100%;
      margin-bottom: 1rem;
    }

    table th,
    table td {
      border: 1px solid #d0d7de;
      padding: 0.5rem;
      text-align: left;
    }

    table th {
      background-color: #f6f8fa;
      font-weight: 600;
      color: #24292f;
    }

    img {
      max-width: 100%;
      height: auto;
    }

    hr {
      border: none;
      border-top: 1px solid #d0d7de;
      margin: 2rem 0;
    }

    /* Mermaid diagrams */
    .mermaid {
      background-color: #ffffff;
      margin: 1rem 0;
      border: 1px solid #d0d7de;
      border-radius: 6px;
      padding: 1rem;
      min-height: 200px;
      display: flex;
      align-items: center;
      justify-content: center;
      overflow: auto;
    }

    /* Make SVG scale properly within container */
    .mermaid svg {
      max-width: 100%;
      height: auto;
      display: block;
      overflow: visible !important;
      max-height: 90vh;
    }

    /* Pan & zoom cursor styles */
    .svg-pan-zoom_viewport {
      cursor: grab;
    }

    .svg-pan-zoom_viewport:active {
      cursor: grabbing;
    }

    /* Prevent text selection while dragging */
    .mermaid, .mermaid * {
      user-select: none;
      -webkit-user-select: none;
    }
  ".

Definition generateHead : string :=
  "
  <meta charset=" ++ Renderer.DQ ++ "UTF-8" ++ Renderer.DQ ++ ">
  <meta name=" ++ Renderer.DQ ++ "viewport" ++ Renderer.DQ ++ " content=" ++ Renderer.DQ ++ "width=device-width, initial-scale=1.0" ++ Renderer.DQ ++ ">
  <title>"
  ++ UI_STRINGS.PAGE_TITLE
  ++ "</title>
  <link rel=" ++ Renderer.DQ ++ "stylesheet" ++ Renderer.DQ ++ " href=" ++ Renderer.DQ ++ "/vendor/highlight.js/styles/github.min.css" ++ Renderer.DQ ++ ">
  <!-- Load Mermaid (UMD) -->
  <script src=" ++ Renderer.DQ ++ "/vendor/mermaid/dist/mermaid.min.js" ++ Renderer.DQ ++ "></script>
  <!-- Load svg-pan-zoom (UMD, exposes window.svgPanZoom) -->
  <script src=" ++ Renderer.DQ ++ "/vendor/svg-pan-zoom/dist/svg-pan-zoom.min.js" ++ Renderer.DQ ++ "></script>
  <style>
"
  ++ generateStyles
  ++ "
  </style>
".

Definition generateBody (content : string) : string :=
  "
  <div class=" ++ Renderer.DQ ++ "container" ++ Renderer.DQ ++ ">
    "
  ++ content
  ++ "
  </div>

  <!-- Mermaid initialization - external file to comply with CSP -->
  <script src=" ++ Renderer.DQ ++ "/mermaid-init.js" ++ Renderer.DQ ++ "></script>
".

Definition generateHtmlTemplate (content : string) : string :=
  "
<!DOCTYPE html>
<html lang=" ++ Renderer.DQ ++ "en" ++ Renderer.DQ ++ ">
<head>
"
  ++ generateHead
  ++ "
</head>
<body>
"
  ++ generateBody content
  ++ "
</body>
</html>
".

End HtmlGenerator.

(* ================================================================= *)
(** ** [src/index.ts]: the route of the page *)

Module Routes.

(** A template literal prints [undefined] for a variable not yet assigned. *)
Definition interpolate (v : option string) : string :=
  match v with
  | Some text => text
  | None => "undefined"
  end.

(** The handler of [GET /]: the body handed to [res.send]. *)
Definition root_route : P (K := Closure) string :=
  content <- gets (fun w => currentHtmlContent (shared w)) ;;
  ret (HtmlGenerator.generateHtmlTemplate (interpolate content)).

End Routes.

(* ================================================================= *)
(** * Vocabulary of the properties *)

(** ** Uses of the registry *)

Module RegistrySpec.
Import ClientManager.

(** A use of the registry from outside: one call of [addClient] or of
    [removeClient]. *)
Inductive call : Type :=
| Register (channel : Response)
| Unregister (channel : Response).

Definition perform (c : call) : M unit :=
  match c with
  | Register channel => addClient channel
  | Unregister channel => removeClient channel
  end.

(** The number of [addClient] calls for [channel] in a sequence. *)
Fixpoint registrations_of (channel : Response) (calls : list call) : nat :=
  match calls with
  | [] => 0
  | Register c :: rest =>
      (if Nat.eqb c channel then 1 else 0) + registrations_of channel rest
  | Unregister _ :: rest => registrations_of channel rest
  end.

Fixpoint registrations (calls : list call) : nat :=
  match calls with
  | [] => 0
  | Register _ :: rest => S (registrations rest)
  | Unregister _ :: rest => registrations rest
  end.

(** The [removeClient] calls that find their channel, the sequence being
    run from the registry content [cs]; [only] selects the calls counted. *)
Fixpoint effective_removals_if (only : Response -> bool)
         (cs : list Response) (calls : list call) : nat :=
  match calls with
  | [] => 0
  | Register c :: rest => effective_removals_if only (cs ++ [c]) rest
  | Unregister c :: rest =>
      let index := indexOf cs c in
      if negb (index =? -1)%Z
      then (if only c then 1 else 0)
           + effective_removals_if only (splice1 index cs) rest
      else effective_removals_if only cs rest
  end.

Definition effective_removals := effective_removals_if (fun _ => true).
Definition effective_removals_of (channel : Response) :=
  effective_removals_if (Nat.eqb channel).

(** The channels that appear in an array, each once. *)
Definition distinct (cs : list Response) : list Response := nodup Nat.eq_dec cs.

(** The registry content after a sequence of calls, started from [cs]. *)
Fixpoint content_after (cs : list Response) (calls : list call) : list Response :=
  match calls with
  | [] => cs
  | Register c :: rest => content_after (cs ++ [c]) rest
  | Unregister c :: rest =>
      let index := indexOf cs c in
      content_after (if negb (index =? -1)%Z then splice1 index cs else cs) rest
  end.
End RegistrySpec.

(** The reading of "never double-counting a channel registered twice":
    [count()] is the number of distinct channels in the registry. *)
Definition count_counts_each_channel_once (calls : list RegistrySpec.call) : Prop :=
  forall files broken,
    let s := snd (forEach RegistrySpec.perform calls (fresh_shared files broken)) in
    fst (ClientManager.getClientCount s)
    = Returned (Z.of_nat (length (RegistrySpec.distinct (clients s)))).

(** ** Broadcasts *)

Module BroadcastSpec.
Import ClientManager.

Definition reload_chunk : string := "data: reload" ++ LF ++ LF.

(** The channels a broadcast reaches: those registered before the first
    one whose write throws. *)
Fixpoint reached (throws : Response -> bool) (cs : list Response) : list Response :=
  match cs with
  | [] => []
  | c :: rest => if throws c then [] else c :: reached throws rest
  end.

(** The state once [chunk] is written to each of [cs] in turn. *)
Definition written (chunk : string) (cs : list Response) (s : Shared) : Shared :=
  fold_left (fun s c => emit (ResWrite c chunk) s) cs s.

(** The broadcast property as the specification words it: the call
    returns, and every registered channel whose own write does not throw
    has been written the message. *)
Definition failures_are_isolated (s : Shared) : Prop :=
  fst (notifyReload s) = Returned tt /\
  forall c, In c (clients s) -> write_throws s c = false ->
            In (ResWrite c reload_chunk) (effects (snd (notifyReload s))).

(** Three channels registered, the second one throwing on write. *)
Definition second_of_three_broken : Shared :=
  mkShared [1; 2; 3] None false (fun _ => None) (fun c => Nat.eqb c 2) [].
End BroadcastSpec.

(** ** Runs of the coordinator *)

Module RebuilderSpec.

(** The flag and the children agree: one child while [Running], none
    while [Idle]. *)
Definition coherent {K} (w : World K) : Prop :=
  if isRebuilding w then length (children w) = 1 else children w = [].

(** What a call of [rebuild] leaves behind when it is dropped. *)
Definition dropped {K} (w : World K) : World K :=
  set_shared (emit (ConsoleLog MESSAGES.REBUILD_IN_PROGRESS) (shared w)) w.

(** What a call of [rebuild] leaves behind when it is accepted. *)
Definition started {K} (projectRoot : string) (onSuccess : K) (w : World K) : World K :=
  mkWorld
    (emit (Spawn (nextPid w) "npx" ["tsc"] projectRoot)
          (emit (ConsoleLog MESSAGES.REBUILDING) (shared w)))
    true
    (children w ++ [mkChild (nextPid w) projectRoot onSuccess])
    (S (nextPid w)) (invoked w)
    (markdownWatcher w) (sourceWatcher w) (listening w)
    (argv w) (cwd w) (dirname w) (WATCH_MODE w).

(** Transitions of the flag along a run: [Idle] to [Running] ... *)
Fixpoint starts (flags : list bool) : nat :=
  match flags with
  | a :: (b :: _) as rest => (if negb a && b then 1 else 0) + starts rest
  | _ => 0
  end.

(** ... and [Running] to [Idle]. *)
Fixpoint completions (flags : list bool) : nat :=
  match flags with
  | a :: (b :: _) as rest => (if a && negb b then 1 else 0) + completions rest
  | _ => 0
  end.

(** A burst: one call of [rebuild] per element. *)
Definition requests_of {K} (l : list (string * K))
  : list (TypeScriptRebuilder.event (K := K)) :=
  map (fun rk => TypeScriptRebuilder.RebuildRequested (fst rk) (snd rk)) l.

(** The calls of [rebuild] in a sequence of events ... *)
Fixpoint requests {K} (evs : list (TypeScriptRebuilder.event (K := K))) : nat :=
  match evs with
  | [] => 0
  | TypeScriptRebuilder.RebuildRequested _ _ :: rest => S (requests rest)
  | _ :: rest => requests rest
  end.

(** ... and the ['close'] events that carry the exit code [0]. *)
Fixpoint zero_closes {K} (evs : list (TypeScriptRebuilder.event (K := K))) : nat :=
  match evs with
  | [] => 0
  | TypeScriptRebuilder.ChildClosed _ code :: rest =>
      (if TypeScriptRebuilder.is_zero code then 1 else 0) + zero_closes rest
  | _ :: rest => zero_closes rest
  end.
End RebuilderSpec.

(** ** Concrete processes *)

(** Stand-ins for the imported packages, for running the program on
    concrete inputs. *)
Definition plain_libs : Libs :=
  mkLibs (fun a b => a ++ "/" ++ b)
         (fun _ src => ret ("<p>" ++ src ++ "</p>"))
         (fun code _ _ => ret ("<pre><code>" ++ code ++ "</code></pre>"))
         (fun _ => false)
         (fun code _ => ret code).

(** A process started as [node index.js notes.md] in [/docs], no file
    readable, no channel broken. *)
Definition sample_boot : World Closure :=
  boot (fresh_shared (fun _ => None) (fun _ => false))
       ["node"; "index.js"; "notes.md"] "/docs" "/app/dist" (Some "true").

(** The server of [sample_boot] some time later: one page rendered and
    served, one channel connected, and the content file gone. *)
Definition viewing_deleted_file : World Closure :=
  mkWorld (mkShared [1] (Some "<h1>Hello</h1>") true
                    (fun _ => None) (fun _ => false) [])
          false [] 0 []
          (Some ("/docs/notes.md", RefreshContent "/docs/notes.md")) None
          (Some 4002%Z)
          ["node"; "index.js"; "notes.md"] "/docs" "/app/dist" None.

(** [sample_boot] once the source tree is watched. *)
Definition watching_sources : World Closure :=
  set_sourceWatcher (Some ("/app/src", "/app")) sample_boot.

(** [sample_boot] with the file [/docs/notes.md] readable. *)
Definition readable_boot : World Closure :=
  boot (fresh_shared (fun p => if String.eqb p "/docs/notes.md"
                               then Some "# Hello" else None)
                     (fun _ => false))
       ["node"; "index.js"; "notes.md"] "/docs" "/app/dist" None.

(** The server of [readable_boot] once started, with one channel connected
    and the file edited since. *)
Definition viewing_edited_file : World Closure :=
  mkWorld (mkShared [1] (Some "<p># Hello</p>") true
                    (fun p => if String.eqb p "/docs/notes.md"
                              then Some "# Goodbye" else None)
                    (fun _ => false) [])
          false [] 0 []
          (Some ("/docs/notes.md", RefreshContent "/docs/notes.md")) None
          (Some 4002%Z)
          ["node"; "index.js"; "notes.md"] "/docs" "/app/dist" None.

(** [viewing_edited_file] with its one channel throwing on write. *)
Definition viewing_through_broken_channel : World Closure :=
  mkWorld (mkShared [1] (Some "<p># Hello</p>") true
                    (fun p => if String.eqb p "/docs/notes.md"
                              then Some "# Goodbye" else None)
                    (fun c => Nat.eqb c 1) [])
          false [] 0 []
          (Some ("/docs/notes.md", RefreshContent "/docs/notes.md")) None
          (Some 4002%Z)
          ["node"; "index.js"; "notes.md"] "/docs" "/app/dist" None.

(** Stand-ins in which [highlight.js] knows every language and fails on
    every input. *)
Definition failing_highlight_libs : Libs :=
  mkLibs (fun a b => a ++ "/" ++ b)
         (fun _ src => ret ("<p>" ++ src ++ "</p>"))
         (fun code _ _ => ret ("<pre><code>" ++ code ++ "</code></pre>"))
         (fun _ => true)
         (fun _ _ => throw (LibraryFailed "Unknown language")).

(** [main] with the [try]/[catch] around the initial load taken away. *)
Definition main_unguarded (L : Libs) : P (K := Closure) unit :=
  sh (Renderer.configureMarked) ;;
  markdownFilePath <- Index.getMarkdownFilePath L ;;
  (html <- sh (loadMarkdown L markdownFilePath) ;;
   sh (modify (set_currentHtmlContent html))) ;;
  watchMode <- gets (fun w => Index.watch_mode (WATCH_MODE w)) ;;
  Index.setupFileWatching L markdownFilePath watchMode ;;
  modify (set_listening SERVER_CONFIG.PORT).

(** The initial load of [main], as a computation of its own. *)
Definition initial_load (load : string -> M string) (path : string)
  : P (K := Closure) unit :=
  html <- sh (load path) ;; sh (modify (set_currentHtmlContent html)).

(** What is left of [main] once the path is known and the content is
    loaded. *)
Definition watch_and_listen (L : Libs) (path : string) : P (K := Closure) unit :=
  watchMode <- gets (fun w => Index.watch_mode (WATCH_MODE w)) ;;
  Index.setupFileWatching L path watchMode ;;
  modify (set_listening SERVER_CONFIG.PORT).

(** The recoverable content error as the specification words it: a change
    event that finds the content file unreadable leaves the content cell as
    it was and writes to no channel. *)
Definition failed_reload_is_silent (L : Libs) (w : World Closure) : Prop :=
  forall filePath,
    markdownWatcher w = Some (filePath, RefreshContent filePath) ->
    fs (shared w) filePath = None ->
    let w' := snd (FileWatcher.markdown_file_changed L w) in
    currentHtmlContent (shared w') = currentHtmlContent (shared w) /\
    forall c chunk, In (ResWrite c chunk) (effects (shared w')) ->
                    In (ResWrite c chunk) (effects (shared w)).

(** The dotfile filter as the specification words it: a change of a file
    whose name begins with a dot does nothing at all. *)
Definition dotfiles_never_trigger (w : World Closure) : Prop :=
  forall dir name,
    name <> "" ->
    FileWatcher.source_tree_changed (dir ++ "/." ++ name) w = (Returned tt, w).

(* ================================================================= *)
(** * Properties *)

(** ** The definitions on concrete inputs *)

Example indexOf_finds_first : ClientManager.indexOf [5; 6; 7; 6] 6 = 1%Z.
Proof. reflexivity. Qed.

Example indexOf_misses : ClientManager.indexOf [5; 6; 7] 9 = (-1)%Z.
Proof. reflexivity. Qed.

Example splice1_removes_one : ClientManager.splice1 1 [5; 6; 7; 6] = [5; 7; 6].
Proof. reflexivity. Qed.

Example source_paths :
  map FileWatcher.is_source_path ["a.ts"; "a.js"; "a.md"; "a.json"; ".ts"; "ts"]
  = [true; true; false; false; true; false].
Proof. reflexivity. Qed.

Example ignored_paths :
  map FILE_WATCHER_OPTIONS.ignored
      ["/app/src/index.ts"; "/app/src/.eslintrc.js"; ".git/config";
       "/app/.cache/x.ts"; "a.b"; "/app/src/."; "/app/src/." ++ LF ++ "x.ts"]
  = [false; true; true; true; false; false; false].
Proof. reflexivity. Qed.

Example broadcast_with_second_channel_broken :
  let r := ClientManager.notifyReload BroadcastSpec.second_of_three_broken in
  fst r = Thrown (WriteFailed 2) /\
  rev (effects (snd r))
  = [ConsoleLog "Notifying 3 connected client(s) to reload...";
     ResWrite 1 BroadcastSpec.reload_chunk].
Proof. split; reflexivity. Qed.

Example burst_of_requests_spawns_once :
  let w := TypeScriptRebuilder.after (call_closure plain_libs)
             [TypeScriptRebuilder.RebuildRequested "/app" ReloadAfterRebuild;
              TypeScriptRebuilder.RebuildRequested "/app" ReloadAfterRebuild;
              TypeScriptRebuilder.RebuildRequested "/app" ReloadAfterRebuild]
             sample_boot in
  isRebuilding w = true /\
  children w = [mkChild 0 "/app" ReloadAfterRebuild] /\
  rev (effects (shared w))
  = [ConsoleLog MESSAGES.REBUILDING; Spawn 0 "npx" ["tsc"] "/app";
     ConsoleLog MESSAGES.REBUILD_IN_PROGRESS;
     ConsoleLog MESSAGES.REBUILD_IN_PROGRESS].
Proof. repeat split. Qed.

Example failed_rebuild_then_successful_one :
  let w := TypeScriptRebuilder.after (call_closure plain_libs)
             [TypeScriptRebuilder.RebuildRequested "/app" ReloadAfterRebuild;
              TypeScriptRebuilder.ChildClosed 0 (Some 2%Z);
              TypeScriptRebuilder.RebuildRequested "/app" ReloadAfterRebuild;
              TypeScriptRebuilder.ChildClosed 1 (Some 0%Z)]
             sample_boot in
  isRebuilding w = false /\ children w = [] /\ invoked w = [ReloadAfterRebuild].
Proof. repeat split. Qed.

Example mermaid_markup_is_kept :
  fst (Renderer.code plain_libs "A[<b>x</b>] --> B" (Some "mermaid") false
         (fresh_shared (fun _ => None) (fun _ => false)))
  = Returned ("<div class=" ++ Renderer.DQ ++ "mermaid" ++ Renderer.DQ
              ++ ">A[<b>x</b>] --> B</div>").
Proof. reflexivity. Qed.

Example other_spellings_are_not_mermaid :
  map (fun l => fst (Renderer.code plain_libs "graph TD" l false
                       (fresh_shared (fun _ => None) (fun _ => false))))
      [Some "Mermaid"; Some "mermaid "; None]
  = [Returned "<pre><code>graph TD</code></pre>";
     Returned "<pre><code>graph TD</code></pre>";
     Returned "<pre><code>graph TD</code></pre>"].
Proof. reflexivity. Qed.

Example main_without_argument_exits :
  fst (Index.main plain_libs
         (boot (fresh_shared (fun _ => None) (fun _ => false))
               ["node"; "index.js"] "/docs" "/app/dist" None))
  = Exited 1.
Proof. reflexivity. Qed.

Example main_with_readable_file_listens :
  let w := snd (Index.main plain_libs
                  (boot (fresh_shared (fun p => if String.eqb p "/docs/notes.md"
                                                then Some "# Hello" else None)
                                      (fun _ => false))
                        ["node"; "index.js"; "notes.md"] "/docs" "/app/dist" None)) in
  currentHtmlContent (shared w) = Some "<p># Hello</p>" /\
  listening w = Some 4002%Z /\ sourceWatcher w = None.
Proof. repeat split. Qed.

(** ** The connection registry *)

Module RegistryFacts.
Import ClientManager RegistrySpec.

Lemma indexOf_lower (l : list Response) (x : Response) : (-1 <= indexOf l x)%Z.
Proof.
  induction l as [|y l IH]; simpl; [lia|].
  destruct (Nat.eqb y x); [lia|].
  destruct (indexOf l x =? -1)%Z; lia.
Qed.

Lemma indexOf_absent (l : list Response) (x : Response) :
  ~ In x l -> indexOf l x = (-1)%Z.
Proof.
  induction l as [|y l IH]; simpl; intros H; [reflexivity|].
  destruct (Nat.eqb_spec y x) as [->|_]; [exfalso; auto|].
  rewrite IH by auto. reflexivity.
Qed.

Lemma indexOf_found (l : list Response) (x : Response) :
  indexOf l x <> (-1)%Z -> In x l /\ (Z.to_nat (indexOf l x) < length l)%nat.
Proof.
  induction l as [|y l IH]; simpl; [congruence|].
  destruct (Nat.eqb_spec y x) as [->|_]; [intros _; split; [auto|simpl; lia]|].
  destruct (Z.eqb_spec (indexOf l x) (-1)) as [E|E]; [congruence|].
  intros _. destruct (IH E) as [Hin Hlt]. split; [auto|].
  pose proof (indexOf_lower l x). lia.
Qed.

Lemma indexOf_present (l : list Response) (x : Response) :
  In x l -> indexOf l x <> (-1)%Z.
Proof.
  induction l as [|y l IH]; simpl; [tauto|].
  destruct (Nat.eqb_spec y x) as [->|N]; [lia|].
  intros [E|Hin]; [congruence|].
  specialize (IH Hin).
  destruct (Z.eqb_spec (indexOf l x) (-1)); [congruence|].
  pose proof (indexOf_lower l x). lia.
Qed.

(** Below its result, [indexOf] has met other elements only. *)
Lemma splice1_indexOf (l : list Response) (x : Response) :
  indexOf l x <> (-1)%Z ->
  exists before rest,
    l = (before ++ x :: rest)%list /\ ~ In x before /\
    splice1 (indexOf l x) l = (before ++ rest)%list.
Proof.
  induction l as [|y l IH]; simpl; [congruence|].
  destruct (Nat.eqb_spec y x) as [->|N].
  - intros _. exists [], l. repeat split; auto.
  - destruct (Z.eqb_spec (indexOf l x) (-1)) as [E|E]; [congruence|].
    intros _. destruct (IH E) as (before & rest & Hl & Hnot & Hs).
    exists (y :: before), rest. repeat split.
    + simpl. congruence.
    + simpl. intros [F|F]; [congruence|tauto].
    + pose proof (indexOf_lower l x).
      unfold splice1 in *.
      replace (Z.to_nat (indexOf l x + 1)) with (S (Z.to_nat (indexOf l x))) by lia.
      simpl. f_equal. exact Hs.
Qed.

Lemma splice1_length (l : list Response) (x : Response) :
  indexOf l x <> (-1)%Z -> S (length (splice1 (indexOf l x) l)) = length l.
Proof.
  intros H. destruct (splice1_indexOf l x H) as (b & r & Hl & _ & Hs).
  rewrite Hs. rewrite Hl. rewrite !length_app. simpl. lia.
Qed.

Lemma splice1_count (l : list Response) (x c : Response) :
  indexOf l x <> (-1)%Z ->
  count_occ Nat.eq_dec (splice1 (indexOf l x) l) c
  + (if Nat.eqb x c then 1 else 0)
  = count_occ Nat.eq_dec l c.
Proof.
  intros H. destruct (splice1_indexOf l x H) as (b & r & Hl & _ & Hs).
  rewrite Hs. rewrite Hl. rewrite !count_occ_app. simpl.
  destruct (Nat.eq_dec x c) as [->|N].
  - rewrite Nat.eqb_refl. lia.
  - destruct (Nat.eqb_spec x c); [congruence|lia].
Qed.

Lemma perform_all (calls : list call) (s : Shared) :
  forEach perform calls s
  = (Returned tt, set_clients (content_after (clients s) calls) s).
Proof.
  revert s. induction calls as [|c calls IH]; intros s.
  - destruct s; reflexivity.
  - destruct c as [c|c]; simpl; unfold bind; simpl.
    + rewrite IH. destruct s; reflexivity.
    + unfold removeClient, bind, gets. simpl.
      destruct (negb (indexOf (clients s) c =? -1)%Z); simpl;
        rewrite IH; destruct s; reflexivity.
Qed.

Lemma content_length (calls : list call) (cs : list Response) :
  length (content_after cs calls) + effective_removals cs calls
  = length cs + registrations calls.
Proof.
  unfold effective_removals.
  revert cs. induction calls as [|c calls IH]; intros cs; simpl; [lia|].
  destruct c as [c|c]; simpl.
  - rewrite IH, length_app. simpl. lia.
  - destruct (Z.eqb_spec (indexOf cs c) (-1)) as [E|E]; simpl.
    + apply IH.
    + pose proof (splice1_length cs c E).
      specialize (IH (splice1 (indexOf cs c) cs)). lia.
Qed.

Lemma content_count (channel : Response) (calls : list call) (cs : list Response) :
  count_occ Nat.eq_dec (content_after cs calls) channel
  + effective_removals_of channel cs calls
  = count_occ Nat.eq_dec cs channel + registrations_of channel calls.
Proof.
  unfold effective_removals_of.
  revert cs. induction calls as [|c calls IH]; intros cs; simpl; [lia|].
  destruct c as [c|c]; simpl.
  - rewrite IH, count_occ_app. simpl.
    destruct (Nat.eq_dec c channel) as [->|N].
    + rewrite Nat.eqb_refl. unfold Response in *. lia.
    + destruct (Nat.eqb_spec c channel); [congruence|unfold Response in *; lia].
  - destruct (Z.eqb_spec (indexOf cs c) (-1)) as [E|E]; simpl.
    + apply IH.
    + pose proof (splice1_count cs c channel E) as Hc.
      rewrite (Nat.eqb_sym channel c).
      specialize (IH (splice1 (indexOf cs c) cs)).
      unfold Response in *. lia.
Qed.
End RegistryFacts.

Module BroadcastFacts.
Import ClientManager BroadcastSpec.

Lemma written_frame (chunk : string) (cs : list Response) (s : Shared) :
  clients (written chunk cs s) = clients s /\
  currentHtmlContent (written chunk cs s) = currentHtmlContent s /\
  fs (written chunk cs s) = fs s /\
  write_throws (written chunk cs s) = write_throws s /\
  effects (written chunk cs s)
  = (rev (map (fun c => ResWrite c chunk) cs) ++ effects s)%list.
Proof.
  revert s. induction cs as [|c cs IH]; intros s; simpl; [auto|].
  destruct (IH (emit (ResWrite c chunk) s)) as (H1 & H2 & H3 & H4 & H5).
  unfold written in *. simpl in *.
  rewrite H1, H2, H3, H4, H5, <- app_assoc. auto.
Qed.

Lemma forEach_write (chunk : string) (cs : list Response) (s : Shared) :
  forEach (fun client => res_write client chunk) cs s
  = (match find (write_throws s) cs with
     | Some c => Thrown (WriteFailed c)
     | None => Returned tt
     end,
     written chunk (reached (write_throws s) cs) s).
Proof.
  revert s. induction cs as [|c cs IH]; intros s; simpl; [reflexivity|].
  unfold bind, res_write.
  destruct (write_throws s c) eqn:E; [reflexivity|].
  rewrite IH. reflexivity.
Qed.

Lemma notifyReload_run (s : Shared) :
  notifyReload s
  = (match find (write_throws s) (clients s) with
     | Some c => Thrown (WriteFailed c)
     | None => Returned tt
     end,
     written reload_chunk (reached (write_throws s) (clients s))
       (emit (ConsoleLog ("Notifying " ++ show_nat (length (clients s))
                          ++ " connected client(s) to reload...")) s)).
Proof.
  unfold notifyReload, bind, gets, console_log, modify.
  rewrite forEach_write. reflexivity.
Qed.

(** Where the broadcast stops: at the first channel whose write throws,
    all those before it being healthy. *)
Lemma reached_split (throws : Response -> bool) (cs : list Response) :
  match find throws cs with
  | Some c => exists later, cs = (reached throws cs ++ c :: later)%list
  | None => reached throws cs = cs
  end /\
  forallb (fun c => negb (throws c)) (reached throws cs) = true.
Proof.
  induction cs as [|c cs [IH1 IH2]]; simpl; [auto|].
  destruct (throws c) eqn:E; simpl.
  - split; [exists cs; reflexivity|reflexivity].
  - rewrite E. simpl. split; [|exact IH2].
    destruct (find throws cs) as [c'|].
    + destruct IH1 as [later IH1]. exists later. simpl. congruence.
    + congruence.
Qed.

(** A broadcast leaves the registry and the content cell alone. *)
Lemma notifyReload_frame (s : Shared) :
  clients (snd (notifyReload s)) = clients s /\
  currentHtmlContent (snd (notifyReload s)) = currentHtmlContent s.
Proof.
  rewrite notifyReload_run. cbn [snd].
  destruct (written_frame reload_chunk (reached (write_throws s) (clients s))
              (emit (ConsoleLog ("Notifying " ++ show_nat (length (clients s))
                                 ++ " connected client(s) to reload...")) s))
    as (H1 & H2 & _).
  rewrite H1, H2. auto.
Qed.

End BroadcastFacts.

(** C7 (counterexample): a channel registered twice is counted twice:
    after [addClient(r); addClient(r)] the count is 2 for one channel. *)
Lemma count_double_counts_a_channel_registered_twice :
  ~ count_counts_each_channel_once
      [RegistrySpec.Register 7; RegistrySpec.Register 7].
Proof.
  intros H. specialize (H (fun _ => None) (fun _ => false)).
  vm_compute in H. discriminate H.
Qed.

(** C7 (amended): for every sequence of register and unregister calls on a
    new registry, [count()] is the number of registrations minus the number
    of removals that found their channel, and is not negative; the registry
    keeps one entry per registration, so each channel is counted as many
    times as it was registered and not yet removed. *)
Theorem count_is_registrations_minus_effective_removals
        (calls : list RegistrySpec.call)
        (files : string -> option string) (broken : Response -> bool) :
  let s := snd (forEach RegistrySpec.perform calls (fresh_shared files broken)) in
  let count := (Z.of_nat (RegistrySpec.registrations calls)
                - Z.of_nat (RegistrySpec.effective_removals [] calls))%Z in
  fst (forEach RegistrySpec.perform calls (fresh_shared files broken)) = Returned tt /\
  ClientManager.getClientCount s = (Returned count, s) /\
  (0 <= count)%Z /\
  forall channel,
    count_occ Nat.eq_dec (clients s) channel
    + RegistrySpec.effective_removals_of channel [] calls
    = RegistrySpec.registrations_of channel calls.
Proof.
  cbv zeta. rewrite RegistryFacts.perform_all. simpl.
  pose proof (RegistryFacts.content_length calls []) as Hlen. simpl in Hlen.
  repeat split.
  - unfold ClientManager.getClientCount, bind, gets, ret. simpl.
    do 2 f_equal. unfold Response in *. lia.
  - lia.
  - intros channel.
    pose proof (RegistryFacts.content_count channel calls []) as Hc.
    simpl in Hc. exact Hc.
Qed.

(** C8: [removeClient] with a channel that is not in the registry returns
    without throwing and leaves the whole state as it was. *)
Theorem removeClient_unknown_channel_is_noop (s : Shared) (channel : Response) :
  ~ In channel (clients s) ->
  ClientManager.removeClient channel s = (Returned tt, s).
Proof.
  intros H. unfold ClientManager.removeClient, bind, gets.
  rewrite (RegistryFacts.indexOf_absent _ _ H). reflexivity.
Qed.

(** C8 at work: channel 3 is not among the channels 1 and 2. *)
Lemma removeClient_unknown_channel_is_noop_witness :
  ~ In 3 (clients (mkShared [1; 2] None false (fun _ => None) (fun _ => false) [])) /\
  ClientManager.removeClient 3 (mkShared [1; 2] None false (fun _ => None) (fun _ => false) [])
  = (Returned tt, mkShared [1; 2] None false (fun _ => None) (fun _ => false) []).
Proof.
  assert (H : ~ In 3 (clients (mkShared [1; 2] None false
                                        (fun _ => None) (fun _ => false) []))).
  { simpl. intros [E|[E|[]]]; discriminate E. }
  split; [exact H|].
  apply (removeClient_unknown_channel_is_noop _ 3 H).
Defined.

(** C1 (counterexample): with three channels registered and the second
    throwing on write, the broadcast ends with that exception and the third
    channel is written nothing. *)
Lemma broadcast_stops_at_the_throwing_channel :
  ~ BroadcastSpec.failures_are_isolated BroadcastSpec.second_of_three_broken.
Proof.
  intros [H _]. vm_compute in H. discriminate H.
Qed.

(** C1 (amended): a broadcast writes the message to the registered channels
    in registration order and does not catch a failing write: the first
    channel whose write throws ends the broadcast with that exception,
    after the channels registered before it have been written the message
    once each, and the channels after it are written nothing; when no write
    throws the broadcast returns and every registered channel has been
    written the message once.  The registry and the content are untouched. *)
Theorem broadcast_reaches_channels_before_first_failure (s : Shared) :
  let r := ClientManager.notifyReload s in
  let served := BroadcastSpec.reached (write_throws s) (clients s) in
  fst r = match find (write_throws s) (clients s) with
          | Some c => Thrown (WriteFailed c)
          | None => Returned tt
          end /\
  effects (snd r)
  = (rev (map (fun c => ResWrite c ("data: reload" ++ LF ++ LF)) served)
     ++ ConsoleLog ("Notifying " ++ show_nat (length (clients s))
                    ++ " connected client(s) to reload...")
     :: effects s)%list /\
  match find (write_throws s) (clients s) with
  | Some c => exists later, clients s = (served ++ c :: later)%list
  | None => served = clients s
  end /\
  forallb (fun c => negb (write_throws s c)) served = true /\
  clients (snd r) = clients s /\
  currentHtmlContent (snd r) = currentHtmlContent s.
Proof.
  cbv zeta.
  destruct (BroadcastFacts.notifyReload_frame s) as [Hclients Hcontent].
  destruct (BroadcastFacts.reached_split (write_throws s) (clients s)) as [Hsplit Hok].
  rewrite BroadcastFacts.notifyReload_run in *. cbn [fst snd] in *.
  destruct (BroadcastFacts.written_frame BroadcastSpec.reload_chunk
              (BroadcastSpec.reached (write_throws s) (clients s))
              (emit (ConsoleLog ("Notifying " ++ show_nat (length (clients s))
                                 ++ " connected client(s) to reload...")) s))
    as (_ & _ & _ & _ & Heffects).
  repeat split; try assumption.
Qed.

(** ** The rebuild coordinator *)

Module RebuilderFacts.
Import TypeScriptRebuilder RebuilderSpec.

Section Facts.
Context {K : Type}.
Variable call : K -> M unit.

Lemma sh_run {A} (m : M A) (w : World K) :
  sh m w = (fst (m (shared w)), set_shared (snd (m (shared w))) w).
Proof. unfold sh, lift. destruct (m (shared w)); reflexivity. Qed.

Lemma invoke_run (k : K) (w : World K) :
  invoke call k w
  = (fst (call k (shared w)),
     set_shared (snd (call k (shared w))) (record_call k w)).
Proof.
  unfold invoke, bind, modify. rewrite sh_run. reflexivity.
Qed.

Lemma on_close_run (onSuccess : K) (code : exit_code) (w : World K) :
  on_close call onSuccess code w
  = if is_zero code
    then invoke call onSuccess
           (set_shared (emit (ConsoleLog MESSAGES.REBUILD_COMPLETE) (shared w))
                       (set_isRebuilding false w))
    else (Returned tt,
          set_shared (emit (ConsoleLog (MESSAGES.REBUILD_FAILED_PREFIX
                                        ++ show_code code)) (shared w))
                     (set_isRebuilding false w)).
Proof.
  unfold on_close, bind, modify. destruct (is_zero code); reflexivity.
Qed.

Lemma on_close_private (onSuccess : K) (code : exit_code) (w : World K) :
  isRebuilding (snd (on_close call onSuccess code w)) = false /\
  children (snd (on_close call onSuccess code w)) = children w /\
  nextPid (snd (on_close call onSuccess code w)) = nextPid w.
Proof.
  rewrite on_close_run. destruct (is_zero code); [|auto].
  rewrite invoke_run. auto.
Qed.

Lemma rebuild_run (projectRoot : string) (onSuccess : K) (w : World K) :
  rebuild projectRoot onSuccess w
  = (Returned tt,
     if isRebuilding w then dropped w else started projectRoot onSuccess w).
Proof.
  unfold rebuild, bind, gets. destruct (isRebuilding w) eqn:E; reflexivity.
Qed.

Lemma running_coherent (pid : nat) (w : World K) (c : Child K) :
  coherent w -> running pid w = Some c ->
  isRebuilding w = true /\ children w = [c] /\ children (reap pid w) = [].
Proof.
  unfold coherent, running, reap. intros Hc Hr.
  destruct (isRebuilding w).
  - destruct (children w) as [|c0 [|c1 rest]]; simpl in *; try discriminate.
    destruct (Nat.eqb (child_pid c0) pid); [|discriminate].
    injection Hr as ->. auto.
  - rewrite Hc in Hr. discriminate.
Qed.

Lemma handle_coherent (ev : event) (w : World K) :
  coherent w -> coherent (snd (handle call ev w)).
Proof.
  intros Hc. destruct ev as [root k|pid data|pid data|pid code]; simpl.
  - rewrite rebuild_run. simpl. unfold coherent in *.
    destruct (isRebuilding w) eqn:E; simpl; [rewrite E; exact Hc|].
    rewrite Hc. reflexivity.
  - unfold bind, gets. destruct (running pid w); [rewrite sh_run|]; exact Hc.
  - unfold bind, gets. destruct (running pid w); [rewrite sh_run|]; exact Hc.
  - unfold bind, gets. destruct (running pid w) as [c|] eqn:Hr; [|exact Hc].
    destruct (running_coherent pid w c Hc Hr) as (_ & _ & Hnone).
    unfold modify.
    destruct (on_close_private (child_onSuccess c) code (reap pid w))
      as (H1 & H2 & _).
    unfold coherent. rewrite H1, H2. exact Hnone.
Qed.

Lemma history_coherent (evs : list event) (w : World K) :
  coherent w -> Forall coherent (history call evs w).
Proof.
  revert w. induction evs as [|ev evs IH]; intros w Hc; simpl.
  - constructor; [exact Hc|constructor].
  - constructor; [exact Hc|]. apply IH, handle_coherent, Hc.
Qed.

Lemma after_coherent (evs : list event) (w : World K) :
  coherent w -> coherent (after call evs w).
Proof.
  revert w. induction evs as [|ev evs IH]; intros w Hc; simpl; [exact Hc|].
  apply IH, handle_coherent, Hc.
Qed.

Lemma coherent_count (w : World K) :
  coherent w -> length (children w) = if isRebuilding w then 1 else 0.
Proof.
  unfold coherent. destruct (isRebuilding w); intros H; [exact H|].
  rewrite H. reflexivity.
Qed.

Lemma history_unfold (evs : list event) (w : World K) :
  history call evs w = w :: tl (history call evs w).
Proof. destruct evs; reflexivity. Qed.

Lemma transitions_balance (evs : list event) (w : World K) :
  coherent w ->
  starts (map isRebuilding (history call evs w))
  + (if isRebuilding w then 1 else 0)
  = completions (map isRebuilding (history call evs w))
    + length (children (after call evs w)).
Proof.
  revert w. induction evs as [|ev evs IH]; intros w Hc.
  - simpl. rewrite (coherent_count w Hc). reflexivity.
  - specialize (IH _ (handle_coherent ev w Hc)).
    simpl history. simpl after.
    rewrite history_unfold in IH |- *. simpl map in *.
    cbn [starts completions].
    destruct (isRebuilding w), (isRebuilding (snd (handle call ev w)));
      simpl in *; lia.
Qed.
End Facts.
End RebuilderFacts.

(** C2: along every sequence of rebuild requests and child events, no
    state has more than one rebuild running; in a state that is [Running]
    there is exactly one, and a call of [rebuild] returns at once having
    only logged that it was skipped: the flag, the running children and
    everything else stay as they were and nothing is spawned. *)
Theorem at_most_one_rebuild_running
        {K : Type} (call : K -> M unit) (s : Shared)
        (args : list string) (workdir scriptdir : string) (watch : option string)
        (evs : list (TypeScriptRebuilder.event (K := K))) :
  Forall (fun w =>
            length (children w) <= 1 /\
            if isRebuilding w
            then length (children w) = 1 /\
                 forall projectRoot onSuccess,
                   TypeScriptRebuilder.rebuild projectRoot onSuccess w
                   = (Returned tt,
                      set_shared (emit (ConsoleLog MESSAGES.REBUILD_IN_PROGRESS)
                                       (shared w)) w)
            else children w = [])
         (TypeScriptRebuilder.history call evs (boot s args workdir scriptdir watch)).
Proof.
  eapply Forall_impl; [|apply RebuilderFacts.history_coherent; reflexivity].
  intros w Hc. unfold RebuilderSpec.coherent in Hc.
  destruct (isRebuilding w) eqn:E.
  - split; [lia|]. split; [exact Hc|].
    intros projectRoot onSuccess.
    rewrite RebuilderFacts.rebuild_run, E. reflexivity.
  - rewrite Hc. split; [simpl; lia|reflexivity].
Qed.

(** C3: in any state the coordinator can reach, when the child of a
    started rebuild closes, with whatever exit code, the state is [Idle]
    again and no child is left, whether or not the callback threw; a call
    of [rebuild] made then is accepted: it returns, sets [Running] and
    spawns one new child.  Along every run the flag has gone from [Idle]
    to [Running] exactly as often as from [Running] to [Idle], plus one
    for the rebuild still running, if any. *)
Theorem rebuild_completion_returns_to_idle
        {K : Type} (call : K -> M unit) (s : Shared)
        (args : list string) (workdir scriptdir : string) (watch : option string)
        (evs : list (TypeScriptRebuilder.event (K := K)))
        (child : Child K) (code : exit_code)
        (projectRoot : string) (onSuccess : K)
        (Hstarted : In child (children (TypeScriptRebuilder.after call evs
                                          (boot s args workdir scriptdir watch)))) :
  let w := TypeScriptRebuilder.after call evs (boot s args workdir scriptdir watch) in
  let w' := snd (TypeScriptRebuilder.handle call
                   (TypeScriptRebuilder.ChildClosed (child_pid child) code) w) in
  let r := TypeScriptRebuilder.rebuild projectRoot onSuccess w' in
  isRebuilding w = true /\
  isRebuilding w' = false /\ children w' = [] /\
  fst r = Returned tt /\
  isRebuilding (snd r) = true /\
  children (snd r) = [mkChild (nextPid w') projectRoot onSuccess] /\
  effects (shared (snd r))
  = Spawn (nextPid w') "npx" ["tsc"] projectRoot
      :: ConsoleLog MESSAGES.REBUILDING :: effects (shared w') /\
  RebuilderSpec.starts
    (map isRebuilding (TypeScriptRebuilder.history call evs (boot s args workdir scriptdir watch)))
  = RebuilderSpec.completions
      (map isRebuilding (TypeScriptRebuilder.history call evs (boot s args workdir scriptdir watch)))
    + length (children w).
Proof.
  intros w w' r.
  assert (Hc : RebuilderSpec.coherent w)
    by (apply RebuilderFacts.after_coherent; reflexivity).
  assert (Hrun : isRebuilding w = true /\ children w = [child]).
  { unfold RebuilderSpec.coherent in Hc. fold w in Hstarted.
    destruct (isRebuilding w).
    - destruct (children w) as [|c0 [|c1 rest]]; simpl in *; try discriminate.
      destruct Hstarted as [->|[]]. auto.
    - rewrite Hc in Hstarted. destruct Hstarted. }
  destruct Hrun as [Hflag Hchildren].
  assert (Hfound : TypeScriptRebuilder.running (child_pid child) w = Some child).
  { unfold TypeScriptRebuilder.running. rewrite Hchildren. simpl.
    rewrite Nat.eqb_refl. reflexivity. }
  destruct (RebuilderFacts.running_coherent (child_pid child) w child Hc Hfound)
    as (_ & _ & Hnone).
  destruct (RebuilderFacts.on_close_private call (child_onSuccess child) code
              (TypeScriptRebuilder.reap (child_pid child) w)) as (Hidle & Hkept & _).
  assert (Hw' : w' = snd (TypeScriptRebuilder.on_close call (child_onSuccess child) code
                            (TypeScriptRebuilder.reap (child_pid child) w))).
  { unfold w'. simpl. unfold bind, gets, modify. rewrite Hfound. reflexivity. }
  assert (Hidle' : isRebuilding w' = false) by (rewrite Hw'; exact Hidle).
  assert (Hnone' : children w' = []) by (rewrite Hw', Hkept; exact Hnone).
  split; [exact Hflag|]. split; [exact Hidle'|]. split; [exact Hnone'|].
  unfold r. rewrite RebuilderFacts.rebuild_run, Hidle'. simpl.
  rewrite Hnone'. repeat split.
  pose proof (RebuilderFacts.transitions_balance call evs
                (boot s args workdir scriptdir watch) eq_refl) as Hb.
  simpl in Hb. fold w in Hb. lia.
Qed.

(** C3 at work: one rebuild started, its child closing with code 2. *)
Lemma rebuild_completion_returns_to_idle_witness :
  In (mkChild 0 "/app" ReloadAfterRebuild)
     (children (TypeScriptRebuilder.after (call_closure plain_libs)
                  [TypeScriptRebuilder.RebuildRequested "/app" ReloadAfterRebuild]
                  sample_boot)) /\
  isRebuilding
    (snd (TypeScriptRebuilder.handle (call_closure plain_libs)
            (TypeScriptRebuilder.ChildClosed 0 (Some 2%Z))
            (TypeScriptRebuilder.after (call_closure plain_libs)
               [TypeScriptRebuilder.RebuildRequested "/app" ReloadAfterRebuild]
               sample_boot))) = false.
Proof.
  assert (H : In (mkChild 0 "/app" ReloadAfterRebuild)
                 (children (TypeScriptRebuilder.after (call_closure plain_libs)
                    [TypeScriptRebuilder.RebuildRequested "/app" ReloadAfterRebuild]
                    sample_boot))).
  { simpl. left. reflexivity. }
  split; [exact H|].
  exact (proj1 (proj2 (rebuild_completion_returns_to_idle
                         (call_closure plain_libs)
                         (fresh_shared (fun _ => None) (fun _ => false))
                         ["node"; "index.js"; "notes.md"] "/docs" "/app/dist"
                         (Some "true")
                         [TypeScriptRebuilder.RebuildRequested "/app" ReloadAfterRebuild]
                         (mkChild 0 "/app" ReloadAfterRebuild) (Some 2%Z)
                         "/app" ReloadAfterRebuild H))).
Defined.


(** ** Strings *)

Module StringFacts.

Lemma length_append (a b : string) :
  String.length (a ++ b) = String.length a + String.length b.
Proof. induction a as [|c a IH]; simpl; [reflexivity|]. rewrite IH. reflexivity. Qed.

Lemma substring_all (s : string) : substring 0 (String.length s) s = s.
Proof. induction s as [|c s IH]; simpl; [reflexivity|]. rewrite IH. reflexivity. Qed.

Lemma substring_skip (a b : string) (m : nat) :
  substring (String.length a) m (a ++ b) = substring 0 m b.
Proof. induction a as [|c a IH]; simpl; [reflexivity|]. exact IH. Qed.

Lemma split_at (s : string) (k : nat) :
  k <= String.length s ->
  s = substring 0 k s ++ substring k (String.length s - k) s.
Proof.
  revert k. induction s as [|c s IH]; intros k Hk; simpl in *.
  - destruct k; reflexivity.
  - destruct k as [|k]; simpl.
    + rewrite substring_all. reflexivity.
    + f_equal. apply IH. lia.
Qed.

(** [endsWith] holds exactly of the strings that are some text followed
    by the suffix. *)
Lemma endsWith_spec (s suffix : string) :
  endsWith s suffix = true <-> exists stem, s = stem ++ suffix.
Proof.
  unfold endsWith. split.
  - destruct (Nat.leb_spec (String.length suffix) (String.length s)) as [Hle|Hlt];
      [|discriminate].
    intros H. apply String.eqb_eq in H.
    exists (substring 0 (String.length s - String.length suffix) s).
    pose proof (split_at s (String.length s - String.length suffix)) as Hs.
    replace (String.length s - (String.length s - String.length suffix))
      with (String.length suffix) in Hs by lia.
    rewrite H in Hs. apply Hs. lia.
  - intros [stem ->]. rewrite length_append.
    destruct (Nat.leb_spec (String.length suffix)
                           (String.length stem + String.length suffix)); [|lia].
    replace (String.length stem + String.length suffix - String.length suffix)
      with (String.length stem) by lia.
    rewrite substring_skip, substring_all. apply String.eqb_refl.
Qed.

Import FILE_WATCHER_OPTIONS.

Lemma ignored_from_head (s : string) :
  dot_any s = true -> ignored_from true s = true.
Proof. intros H. destruct s; simpl in *; [discriminate|]. rewrite H. reflexivity. Qed.

Lemma ignored_from_later (dir : string) (sep : ascii) (s : string) (b : bool) :
  is_separator sep = true -> dot_any s = true ->
  ignored_from b (dir ++ String sep s) = true.
Proof.
  intros Hsep Hdot. revert b. induction dir as [|c dir IH]; intros b; simpl.
  - rewrite Hsep, (ignored_from_head s Hdot). apply orb_true_r.
  - rewrite IH. apply orb_true_r.
Qed.

Lemma dot_any_dotfile (name : string) :
  name <> "" -> starts_with_line_terminator name = false ->
  dot_any ("." ++ name) = true.
Proof.
  intros Hne Hlt. simpl. destruct name; [congruence|]. rewrite Hlt. reflexivity.
Qed.
End StringFacts.

(** ** The reload orchestrator and the entry point *)

Module OrchestratorFacts.

Lemma loadMarkdown_unreadable (L : Libs) (filePath : string) (s : Shared) :
  fs s filePath = None ->
  loadMarkdown L filePath s
  = (Returned MESSAGES.ERROR_LOADING_FILE,
     emit (ConsoleError (describe (ReadFailed filePath)))
          (emit (ConsoleError ("Error reading file: " ++ filePath)) s)).
Proof.
  intros H. unfold loadMarkdown, try_catch, bind, readFileSync.
  rewrite H. reflexivity.
Qed.

(** With a file argument whose file cannot be read, [main] runs to its
    end: it returns, the content cell holds the error fragment and the
    server listens. *)
Lemma main_on_unreadable_file (L : Libs) (w : World Closure)
      (arg0 : string) (rest : list string) :
  skipn 2 (argv w) = arg0 :: rest ->
  fs (shared w) (path_join L (cwd w) arg0) = None ->
  fst (Index.main L w) = Returned tt /\
  currentHtmlContent (shared (snd (Index.main L w)))
  = Some MESSAGES.ERROR_LOADING_FILE /\
  listening (snd (Index.main L w)) = Some SERVER_CONFIG.PORT.
Proof.
  intros Hargs Hfs.
  destruct w as [s0 flag running next called mdw srcw port args here dir watch].
  simpl in Hfs.
  destruct args as [|a0 [|a1 args]]; try discriminate Hargs.
  simpl in Hargs. subst args.
  unfold Index.main, Index.getMarkdownFilePath, bind, gets, try_catch.
  rewrite !RebuilderFacts.sh_run. simpl.
  rewrite !RebuilderFacts.sh_run. simpl.
  rewrite (loadMarkdown_unreadable L (path_join L here arg0)
             (set_markedConfigured true s0) Hfs).
  simpl.
  unfold Index.setupFileWatching, bind. simpl.
  destruct (Index.watch_mode watch); simpl; auto.
Qed.
End OrchestratorFacts.

(** C5 (counterexample): one channel connected, a page served, the file
    deleted: the change event replaces the served content and writes the
    reload message to the channel. *)
Lemma failed_reload_replaces_content_and_broadcasts :
  ~ failed_reload_is_silent plain_libs viewing_deleted_file.
Proof.
  intros H. destruct (H "/docs/notes.md" eq_refl eq_refl) as [Hcontent _].
  vm_compute in Hcontent. discriminate Hcontent.
Qed.

(** C5 (amended): at a change event that finds the content file
    unreadable, the failure is logged, the content cell is overwritten with
    the fixed fragment [<p>Error loading markdown file</p>], and the reload
    broadcast goes out to the connected channels as after any other
    change. *)
Theorem unreadable_content_is_replaced_by_error_page
        (L : Libs) (w : World Closure) (filePath : string)
        (Hwatched : markdownWatcher w = Some (filePath, RefreshContent filePath))
        (Hunreadable : fs (shared w) filePath = None) :
  let logged :=
    emit (ConsoleError (describe (ReadFailed filePath)))
         (emit (ConsoleError ("Error reading file: " ++ filePath))
               (emit (ConsoleLog (MESSAGES.FILE_CHANGED_PREFIX ++ filePath))
                     (shared w))) in
  let replaced := set_currentHtmlContent MESSAGES.ERROR_LOADING_FILE logged in
  FileWatcher.markdown_file_changed L w
  = (fst (ClientManager.notifyReload replaced),
     set_shared (snd (ClientManager.notifyReload replaced))
                (record_call (RefreshContent filePath) w)) /\
  currentHtmlContent (shared (snd (FileWatcher.markdown_file_changed L w)))
  = Some MESSAGES.ERROR_LOADING_FILE /\
  effects (shared (snd (FileWatcher.markdown_file_changed L w)))
  = (rev (map (fun c => ResWrite c ("data: reload" ++ LF ++ LF))
              (BroadcastSpec.reached (write_throws (shared w)) (clients (shared w))))
     ++ ConsoleLog ("Notifying " ++ show_nat (length (clients (shared w)))
                    ++ " connected client(s) to reload...")
     :: effects logged)%list.
Proof.
  intros logged replaced.
  assert (Hrun : FileWatcher.markdown_file_changed L w
                 = (fst (ClientManager.notifyReload replaced),
                    set_shared (snd (ClientManager.notifyReload replaced))
                               (record_call (RefreshContent filePath) w))).
  { unfold FileWatcher.markdown_file_changed, bind, gets. rewrite Hwatched.
    unfold FileWatcher.on_markdown_change, bind.
    rewrite RebuilderFacts.sh_run. simpl.
    rewrite RebuilderFacts.invoke_run. simpl.
    unfold bind. rewrite (OrchestratorFacts.loadMarkdown_unreadable L); [|exact Hunreadable].
    simpl. rewrite RebuilderFacts.sh_run. reflexivity. }
  rewrite Hrun. split; [reflexivity|]. cbn [snd].
  destruct (BroadcastFacts.notifyReload_frame replaced) as [_ Hcontent].
  split.
  - simpl. rewrite Hcontent. reflexivity.
  - simpl shared. rewrite BroadcastFacts.notifyReload_run. cbn [snd].
    destruct (BroadcastFacts.written_frame BroadcastSpec.reload_chunk
                (BroadcastSpec.reached (write_throws replaced) (clients replaced))
                (emit (ConsoleLog ("Notifying " ++ show_nat (length (clients replaced))
                                   ++ " connected client(s) to reload...")) replaced))
      as (_ & _ & _ & _ & He).
    rewrite He. reflexivity.
Qed.

(** C5 at work: the watched file deleted while one channel is connected. *)
Lemma unreadable_content_is_replaced_by_error_page_witness :
  markdownWatcher viewing_deleted_file
  = Some ("/docs/notes.md", RefreshContent "/docs/notes.md") /\
  fs (shared viewing_deleted_file) "/docs/notes.md" = None /\
  currentHtmlContent
    (shared (snd (FileWatcher.markdown_file_changed plain_libs viewing_deleted_file)))
  = Some MESSAGES.ERROR_LOADING_FILE.
Proof.
  split; [reflexivity|]. split; [reflexivity|].
  exact (proj1 (proj2 (unreadable_content_is_replaced_by_error_page
                         plain_libs viewing_deleted_file "/docs/notes.md"
                         eq_refl eq_refl))).
Defined.

(** C6 (the program at the failing input): started with a file argument
    whose file cannot be read, [main] does not exit: it returns normally
    with the error fragment as content, the file watched and the server
    listening on its port. *)
Theorem main_serves_error_page_when_initial_file_is_unreadable :
  fs (shared sample_boot) "/docs/notes.md" = None /\
  fst (Index.main plain_libs sample_boot) = Returned tt /\
  currentHtmlContent (shared (snd (Index.main plain_libs sample_boot)))
  = Some "<p>Error loading markdown file</p>" /\
  listening (snd (Index.main plain_libs sample_boot)) = Some 4002%Z.
Proof.
  split; [reflexivity|].
  exact (OrchestratorFacts.main_on_unreadable_file plain_libs sample_boot
           "notes.md" [] eq_refl eq_refl).
Qed.

(** The dotfile filter does not hold for every dotfile: a file whose name
    begins with a dot followed by a line feed and ends in [.ts] makes the
    change do something. *)
Lemma dotfile_with_line_feed_triggers_rebuild :
  ~ dotfiles_never_trigger watching_sources.
Proof.
  intros H.
  assert (Hname : LF ++ "notes.ts" <> "") by discriminate.
  specialize (H "/app/src" (LF ++ "notes.ts") Hname).
  apply (f_equal (fun r => isRebuilding (snd r))) in H.
  vm_compute in H. discriminate H.
Qed.

(** C9 (the program at the failing input): the pattern that [config.ts]
    marks [// ignore dotfiles] does not match the dotfile
    [/app/src/.<LF>notes.ts], whose name begins with a dot followed by a
    line feed, although it matches the dotfile [/app/src/.notes.ts]; the
    path ends in [.ts], so its change reaches the listener, is logged and
    spawns [npx tsc]: a rebuild is running where the dotfile was to be
    ignored. *)
Theorem dotfile_with_line_feed_is_not_ignored_and_rebuilds :
  FILE_WATCHER_OPTIONS.ignored "/app/src/.notes.ts" = true /\
  FILE_WATCHER_OPTIONS.ignored ("/app/src/." ++ LF ++ "notes.ts") = false /\
  FileWatcher.is_source_path ("/app/src/." ++ LF ++ "notes.ts") = true /\
  FileWatcher.source_tree_changed "/app/src/.notes.ts" watching_sources
  = (Returned tt, watching_sources) /\
  fst (FileWatcher.source_tree_changed ("/app/src/." ++ LF ++ "notes.ts")
         watching_sources) = Returned tt /\
  isRebuilding
    (snd (FileWatcher.source_tree_changed ("/app/src/." ++ LF ++ "notes.ts")
            watching_sources)) = true /\
  children
    (snd (FileWatcher.source_tree_changed ("/app/src/." ++ LF ++ "notes.ts")
            watching_sources))
  = [mkChild 0 "/app" ReloadAfterRebuild] /\
  rev (effects (shared
         (snd (FileWatcher.source_tree_changed ("/app/src/." ++ LF ++ "notes.ts")
                 watching_sources))))
  = [ConsoleLog (MESSAGES.SOURCE_CHANGED_PREFIX ++ "/app/src/." ++ LF ++ "notes.ts");
     ConsoleLog MESSAGES.REBUILDING;
     Spawn 0 "npx" ["tsc"] "/app"].
Proof.
  repeat split.
Qed.

(** The source filter as the code has it: the ['change'] listener of the source watcher calls
    [rebuild] exactly for the paths ending in [.ts] or [.js] and does
    nothing, silently, for every other path; and a path with a component
    that begins with a dot followed by a character other than a line
    terminator is matched by the [ignored] pattern, so that its change
    never reaches the listener and does nothing. *)
Theorem source_change_triggers_rebuild_iff_ts_or_js
        (w : World Closure) (projectRoot path : string) :
  ((exists stem, path = stem ++ ".ts" \/ path = stem ++ ".js") ->
   FileWatcher.on_source_change projectRoot path w
   = (sh (console_log (MESSAGES.SOURCE_CHANGED_PREFIX ++ path)) ;;
      TypeScriptRebuilder.rebuild projectRoot ReloadAfterRebuild) w) /\
  (~ (exists stem, path = stem ++ ".ts" \/ path = stem ++ ".js") ->
   FileWatcher.on_source_change projectRoot path w = (Returned tt, w)) /\
  (forall dir sep name,
      FILE_WATCHER_OPTIONS.is_separator sep = true ->
      name <> "" ->
      FILE_WATCHER_OPTIONS.starts_with_line_terminator name = false ->
      FileWatcher.source_tree_changed (dir ++ String sep ("." ++ name)) w
      = (Returned tt, w) /\
      FileWatcher.source_tree_changed ("." ++ name) w = (Returned tt, w)).
Proof.
  assert (Hiff : FileWatcher.is_source_path path = true
                 <-> exists stem, path = stem ++ ".ts" \/ path = stem ++ ".js").
  { unfold FileWatcher.is_source_path. rewrite orb_true_iff.
    rewrite !StringFacts.endsWith_spec. split.
    - intros [[stem H]|[stem H]]; exists stem; auto.
    - intros [stem [H|H]]; [left|right]; exists stem; exact H. }
  split; [|split].
  - intros H. apply Hiff in H. unfold FileWatcher.on_source_change.
    rewrite H. reflexivity.
  - intros H. unfold FileWatcher.on_source_change.
    destruct (FileWatcher.is_source_path path) eqn:E; [|reflexivity].
    exfalso. apply H, Hiff. reflexivity.
  - intros dir sep name Hsep Hne Hlt.
    pose proof (StringFacts.dot_any_dotfile name Hne Hlt) as Hdot.
    unfold FileWatcher.source_tree_changed, bind, gets.
    destruct (sourceWatcher w) as [[srcPath root]|]; [|split; reflexivity].
    unfold FILE_WATCHER_OPTIONS.ignored.
    rewrite (StringFacts.ignored_from_later dir sep _ true Hsep Hdot).
    rewrite (StringFacts.ignored_from_head _ Hdot).
    split; reflexivity.
Qed.

(** The source filter at work: [config.ts] triggers, [notes.md] does not, [.eslintrc.js]
    never reaches the listener. *)
Lemma source_change_triggers_rebuild_iff_ts_or_js_witness :
  ((exists stem, "/app/src/config.ts" = stem ++ ".ts"
                 \/ "/app/src/config.ts" = stem ++ ".js") /\
   FileWatcher.on_source_change "/app" "/app/src/config.ts" watching_sources
   = (sh (console_log (MESSAGES.SOURCE_CHANGED_PREFIX ++ "/app/src/config.ts")) ;;
      TypeScriptRebuilder.rebuild "/app" ReloadAfterRebuild) watching_sources) /\
  (~ (exists stem, "/app/src/notes.md" = stem ++ ".ts"
                   \/ "/app/src/notes.md" = stem ++ ".js") /\
   FileWatcher.on_source_change "/app" "/app/src/notes.md" watching_sources
   = (Returned tt, watching_sources)) /\
  (FILE_WATCHER_OPTIONS.is_separator "/" = true /\
   "eslintrc.js" <> "" /\
   FILE_WATCHER_OPTIONS.starts_with_line_terminator "eslintrc.js" = false /\
   FileWatcher.source_tree_changed ("/app/src" ++ String "/" ("." ++ "eslintrc.js"))
     watching_sources
   = (Returned tt, watching_sources)).
Proof.
  assert (Hyes : exists stem, "/app/src/config.ts" = stem ++ ".ts"
                              \/ "/app/src/config.ts" = stem ++ ".js").
  { exists "/app/src/config". left. reflexivity. }
  assert (Hno : ~ (exists stem, "/app/src/notes.md" = stem ++ ".ts"
                                \/ "/app/src/notes.md" = stem ++ ".js")).
  { intros [stem [H|H]].
    - assert (E : endsWith "/app/src/notes.md" ".ts" = true)
        by (apply StringFacts.endsWith_spec; exists stem; exact H).
      discriminate E.
    - assert (E : endsWith "/app/src/notes.md" ".js" = true)
        by (apply StringFacts.endsWith_spec; exists stem; exact H).
      discriminate E. }
  assert (Hname : "eslintrc.js" <> "") by discriminate.
  split; [split; [exact Hyes|]|split; [split; [exact Hno|]|]].
  - exact (proj1 (source_change_triggers_rebuild_iff_ts_or_js
                    watching_sources "/app" "/app/src/config.ts") Hyes).
  - exact (proj1 (proj2 (source_change_triggers_rebuild_iff_ts_or_js
                           watching_sources "/app" "/app/src/notes.md")) Hno).
  - split; [reflexivity|]. split; [exact Hname|]. split; [reflexivity|].
    exact (proj1 (proj2 (proj2 (source_change_triggers_rebuild_iff_ts_or_js
                                  watching_sources "/app" "/app/src/config.ts"))
                    "/app/src" "/"%char "eslintrc.js" eq_refl Hname eq_refl)).
Defined.

(** ** The markdown renderer *)

(** C10: for a code block whose language is exactly [mermaid] the code
    renderer returns [<div class="mermaid">], the block's text as it is,
    and [</div>], with no effect and no escaping; and once [configureMarked]
    has run, this renderer is the one [parseMarkdown] hands to [marked]. *)
Theorem mermaid_block_is_emitted_verbatim
        (L : Libs) (code : string) (isEscaped : bool) (s : Shared) :
  Renderer.code L code (Some "mermaid") isEscaped s
  = (Returned ("<div class=" ++ Renderer.DQ ++ "mermaid" ++ Renderer.DQ ++ ">"
               ++ code ++ "</div>"), s) /\
  forall content,
    (Renderer.configureMarked ;; Renderer.parseMarkdown L content) s
    = marked_parse L (Renderer.code L) content (set_markedConfigured true s).
Proof.
  split; [reflexivity|]. intros content. reflexivity.
Qed.

(* ================================================================= *)
(** * Further properties of the code *)

(** ** The registry: removal, order and duplicates *)

Module RegistryMore.
Import ClientManager RegistrySpec BroadcastSpec.

Lemma indexOf_appended (cs : list Response) (c : Response) :
  ~ In c cs -> indexOf (cs ++ [c]) c = Z.of_nat (length cs).
Proof.
  induction cs as [|y cs IH]; simpl; intros H.
  - rewrite Nat.eqb_refl. reflexivity.
  - destruct (Nat.eqb_spec y c) as [E|_]; [exfalso; auto|].
    rewrite IH by auto.
    destruct (Z.eqb_spec (Z.of_nat (length cs)) (-1)); lia.
Qed.

Lemma splice1_appended (cs : list Response) (c : Response) :
  splice1 (Z.of_nat (length cs)) (cs ++ [c]) = cs.
Proof.
  unfold splice1. rewrite Nat2Z.id.
  rewrite skipn_all2 by (rewrite length_app; simpl; lia).
  rewrite firstn_app, firstn_all, Nat.sub_diag. simpl.
  rewrite !app_nil_r. reflexivity.
Qed.

Lemma removeClient_present (s : Shared) (c : Response) :
  In c (clients s) ->
  exists before later,
    clients s = (before ++ c :: later)%list /\ ~ In c before /\
    removeClient c s = (Returned tt, set_clients (before ++ later) s).
Proof.
  intros Hin.
  pose proof (RegistryFacts.indexOf_present _ _ Hin) as Hidx.
  destruct (RegistryFacts.splice1_indexOf _ _ Hidx) as (before & later & Hl & Hnot & Hs).
  exists before, later. split; [exact Hl|]. split; [exact Hnot|].
  unfold removeClient, bind, gets.
  destruct (Z.eqb_spec (indexOf (clients s) c) (-1)) as [E|_]; [congruence|].
  simpl. unfold modify. rewrite Hs. reflexivity.
Qed.



Lemma reached_all_healthy (throws : Response -> bool) (cs : list Response) :
  forallb (fun c => negb (throws c)) cs = true ->
  reached throws cs = cs /\ find throws cs = None.
Proof.
  induction cs as [|y cs IH]; simpl; [auto|].
  destruct (throws y); simpl; [discriminate|].
  intros H. destruct (IH H) as [-> ->]. auto.
Qed.

Lemma content_after_registers (cs0 cs : list Response) :
  content_after cs0 (map Register cs) = (cs0 ++ cs)%list.
Proof.
  revert cs0. induction cs as [|c cs IH]; intros cs0; simpl.
  - rewrite app_nil_r. reflexivity.
  - rewrite IH, <- app_assoc. reflexivity.
Qed.

End RegistryMore.

(** X1: registering a channel that is not in the registry and then
    unregistering it gives back the state there was before. *)
Theorem addClient_then_removeClient_restores (s : Shared) (channel : Response) :
  ~ In channel (clients s) ->
  (ClientManager.addClient channel ;; ClientManager.removeClient channel) s
  = (Returned tt, s).
Proof.
  intros H. unfold ClientManager.addClient, ClientManager.removeClient, bind, gets, modify.
  simpl. rewrite (RegistryMore.indexOf_appended _ _ H).
  destruct (Z.eqb_spec (Z.of_nat (length (clients s))) (-1)) as [E|_]; [lia|].
  simpl. rewrite RegistryMore.splice1_appended. destruct s; reflexivity.
Qed.

(** X1 at work: channel 3 joins the channels 1 and 2 and leaves again. *)
Lemma addClient_then_removeClient_restores_witness :
  ~ In 3 (clients (mkShared [1; 2] None false (fun _ => None) (fun _ => false) [])) /\
  (ClientManager.addClient 3 ;; ClientManager.removeClient 3)
    (mkShared [1; 2] None false (fun _ => None) (fun _ => false) [])
  = (Returned tt, mkShared [1; 2] None false (fun _ => None) (fun _ => false) []).
Proof.
  assert (H : ~ In 3 (clients (mkShared [1; 2] None false
                                        (fun _ => None) (fun _ => false) []))).
  { simpl. intros [E|[E|[]]]; discriminate E. }
  split; [exact H|].
  apply (addClient_then_removeClient_restores _ 3 H).
Defined.

(** X2: unregistering a channel that is in the registry takes out its first
    entry and nothing else: the entries before and after it keep their
    order, the call returns, and the count goes down by one. *)
Theorem removeClient_takes_out_first_entry (s : Shared) (channel : Response) :
  In channel (clients s) ->
  exists before later,
    clients s = (before ++ channel :: later)%list /\
    ~ In channel before /\
    ClientManager.removeClient channel s
    = (Returned tt, set_clients (before ++ later) s) /\
    (fst (ClientManager.getClientCount (snd (ClientManager.removeClient channel s)))
     = Returned (Z.of_nat (length (clients s)) - 1)%Z).
Proof.
  intros Hin.
  destruct (RegistryMore.removeClient_present s channel Hin)
    as (before & later & Hl & Hnot & Hrun).
  exists before, later. repeat split; try assumption.
  rewrite Hrun, Hl. unfold ClientManager.getClientCount, bind, gets, ret. simpl.
  rewrite !length_app. simpl. f_equal. lia.
Qed.

(** X2 at work: channel 6 appears twice among 5, 6, 7, 6. *)
Lemma removeClient_takes_out_first_entry_witness :
  In 6 (clients (mkShared [5; 6; 7; 6] None false (fun _ => None) (fun _ => false) [])) /\
  exists before later,
    [5; 6; 7; 6] = (before ++ 6 :: later)%list /\
    ClientManager.removeClient 6
      (mkShared [5; 6; 7; 6] None false (fun _ => None) (fun _ => false) [])
    = (Returned tt,
       set_clients (before ++ later)
         (mkShared [5; 6; 7; 6] None false (fun _ => None) (fun _ => false) [])).
Proof.
  assert (H : In 6 (clients (mkShared [5; 6; 7; 6] None false
                                      (fun _ => None) (fun _ => false) []))).
  { simpl. right. left. reflexivity. }
  split; [exact H|].
  destruct (removeClient_takes_out_first_entry _ 6 H)
    as (before & later & Hl & _ & Hrun & _).
  exists before, later. split; [exact Hl|exact Hrun].
Defined.



(** X4: channels registered one after the other on a new registry, none of
    them throwing on write, are all written the reload message by a
    broadcast, once each and in the order they were registered, after the
    line that announces how many they are. *)
Theorem broadcast_follows_registration_order
        (channels : list Response)
        (files : string -> option string) (broken : Response -> bool) :
  forallb (fun c => negb (broken c)) channels = true ->
  let s := snd (forEach RegistrySpec.perform (map RegistrySpec.Register channels)
                        (fresh_shared files broken)) in
  fst (ClientManager.notifyReload s) = Returned tt /\
  rev (effects (snd (ClientManager.notifyReload s)))
  = ConsoleLog ("Notifying " ++ show_nat (length channels)
                ++ " connected client(s) to reload...")
    :: map (fun c => ResWrite c ("data: reload" ++ LF ++ LF)) channels.
Proof.
  intros Hok. cbv zeta.
  rewrite RegistryFacts.perform_all. cbn [snd].
  rewrite BroadcastFacts.notifyReload_run. cbn [fst snd].
  change (clients (fresh_shared files broken)) with (@nil Response).
  rewrite RegistryMore.content_after_registers. simpl app.
  change (clients (set_clients channels (fresh_shared files broken))) with channels.
  change (write_throws (set_clients channels (fresh_shared files broken))) with broken.
  destruct (RegistryMore.reached_all_healthy broken channels Hok) as [Hr Hf].
  rewrite Hr, Hf. split; [reflexivity|].
  destruct (BroadcastFacts.written_frame BroadcastSpec.reload_chunk channels
              (emit (ConsoleLog ("Notifying " ++ show_nat (length channels)
                                 ++ " connected client(s) to reload..."))
                    (set_clients channels (fresh_shared files broken))))
    as (_ & _ & _ & _ & He).
  rewrite He. simpl. rewrite rev_app_distr, rev_involutive. reflexivity.
Qed.

(** X4 at work: the channels 4, 9 and 2, registered in this order. *)
Lemma broadcast_follows_registration_order_witness :
  forallb (fun c => negb ((fun _ : Response => false) c)) [4; 9; 2] = true /\
  fst (ClientManager.notifyReload
         (snd (forEach RegistrySpec.perform (map RegistrySpec.Register [4; 9; 2])
                       (fresh_shared (fun _ => None) (fun _ => false)))))
  = Returned tt.
Proof.
  split; [reflexivity|].
  exact (proj1 (broadcast_follows_registration_order
                  [4; 9; 2] (fun _ => None) (fun _ => false) eq_refl)).
Defined.

(** ** The coordinator: bursts and accounting *)

Module RebuilderMore.
Import TypeScriptRebuilder RebuilderSpec.

Section Facts.
Context {K : Type}.
Variable call : K -> M unit.

(** While [Running], a burst only adds its log lines. *)
Lemma burst_while_running (others : list (string * K)) (w : World K) :
  isRebuilding w = true ->
  after call (requests_of others) w
  = set_shared
      (fold_left (fun s _ => emit (ConsoleLog MESSAGES.REBUILD_IN_PROGRESS) s)
                 others (shared w)) w.
Proof.
  revert w. induction others as [|[root k] others IH]; intros w Hrun; simpl.
  - destruct w; reflexivity.
  - rewrite RebuilderFacts.rebuild_run, Hrun. cbn [snd].
    rewrite IH by exact Hrun. destruct w; reflexivity.
Qed.

Lemma burst_from_idle (projectRoot : string) (onSuccess : K)
      (others : list (string * K)) (w : World K) :
  isRebuilding w = false ->
  after call (RebuildRequested projectRoot onSuccess :: requests_of others) w
  = set_shared
      (fold_left (fun s _ => emit (ConsoleLog MESSAGES.REBUILD_IN_PROGRESS) s)
                 others (shared (started projectRoot onSuccess w)))
      (started projectRoot onSuccess w).
Proof.
  intros Hidle.
  change (after call (RebuildRequested projectRoot onSuccess :: requests_of others) w)
    with (after call (requests_of others) (snd (rebuild projectRoot onSuccess w))).
  rewrite RebuilderFacts.rebuild_run, Hidle. cbn [snd].
  apply burst_while_running. reflexivity.
Qed.

Lemma fold_emit_effects (others : list (string * K)) (s : Shared) :
  effects (fold_left (fun s _ => emit (ConsoleLog MESSAGES.REBUILD_IN_PROGRESS) s)
                     others s)
  = (repeat (ConsoleLog MESSAGES.REBUILD_IN_PROGRESS) (length others) ++ effects s)%list.
Proof.
  revert s. induction others as [|x others IH]; intros s; simpl; [reflexivity|].
  rewrite IH. simpl.
  change (ConsoleLog MESSAGES.REBUILD_IN_PROGRESS :: effects s)
    with ([ConsoleLog MESSAGES.REBUILD_IN_PROGRESS] ++ effects s)%list.
  rewrite app_assoc. f_equal.
  clear. induction (length others) as [|n IHn]; simpl; [reflexivity|].
  rewrite IHn. reflexivity.
Qed.

Lemma find_filter_shorter (pid : nat) (cs : list (Child K)) (c : Child K) :
  find (fun c => Nat.eqb (child_pid c) pid) cs = Some c ->
  length (filter (fun c => negb (Nat.eqb (child_pid c) pid)) cs) < length cs.
Proof.
  induction cs as [|y cs IH]; simpl; [discriminate|].
  destruct (Nat.eqb (child_pid y) pid); simpl.
  - intros _. pose proof (filter_length_le
                            (fun c => negb (Nat.eqb (child_pid c) pid)) cs). lia.
  - intros H. specialize (IH H). lia.
Qed.

Lemma on_close_invoked (onSuccess : K) (code : exit_code) (w : World K) :
  invoked (snd (on_close call onSuccess code w))
  = if is_zero code then onSuccess :: invoked w else invoked w.
Proof.
  rewrite RebuilderFacts.on_close_run. destruct (is_zero code); [|reflexivity].
  rewrite RebuilderFacts.invoke_run. reflexivity.
Qed.

(** One event: a call is recorded only by a ['close'] with code [0], and
    only by using up a running child; a child is added only by a call of
    [rebuild]. *)
Lemma handle_accounts (ev : event) (w : World K) :
  length (invoked (snd (handle call ev w)))
  <= length (invoked w) + zero_closes [ev] /\
  length (invoked (snd (handle call ev w))) + length (children (snd (handle call ev w)))
  <= length (invoked w) + length (children w) + requests [ev].
Proof.
  destruct ev as [root k|pid data|pid data|pid code]; simpl.
  - rewrite RebuilderFacts.rebuild_run. cbn [snd].
    destruct (isRebuilding w); simpl; [lia|]. rewrite length_app. simpl. lia.
  - unfold bind, gets. destruct (running pid w);
      [rewrite RebuilderFacts.sh_run|]; simpl; lia.
  - unfold bind, gets. destruct (running pid w);
      [rewrite RebuilderFacts.sh_run|]; simpl; lia.
  - unfold bind, gets. destruct (running pid w) as [c|] eqn:Hr; [|simpl; lia].
    unfold modify.
    destruct (RebuilderFacts.on_close_private call (child_onSuccess c) code (reap pid w))
      as (_ & Hch & _).
    rewrite Hch, on_close_invoked.
    pose proof (find_filter_shorter pid (children w) c Hr) as Hlt.
    unfold reap. simpl.
    destruct (is_zero code); simpl; lia.
Qed.

Lemma after_accounts (evs : list event) (w : World K) :
  length (invoked (after call evs w)) <= length (invoked w) + zero_closes evs /\
  length (invoked (after call evs w)) + length (children (after call evs w))
  <= length (invoked w) + length (children w) + requests evs.
Proof.
  revert w. induction evs as [|ev evs IH]; intros w; [simpl; lia|].
  destruct (handle_accounts ev w) as [H1 H2].
  destruct (IH (snd (handle call ev w))) as [H3 H4].
  assert (Hz : zero_closes (ev :: evs) = zero_closes [ev] + zero_closes evs)
    by (destruct ev; simpl; lia).
  assert (Hq : requests (ev :: evs) = requests [ev] + requests evs)
    by (destruct ev; simpl; lia).
  simpl after. rewrite Hz, Hq. lia.
Qed.
End Facts.
End RebuilderMore.

(** X5: in a burst of [rebuild] calls on a coordinator at rest, the first
    call spawns the one child and every later call only logs that it was
    skipped; the callbacks of the later calls are kept nowhere, so that
    when the child closes the only callback that can be called is the one
    of the first call, and it is called exactly when the code is [0]. *)
Theorem burst_first_request_wins
        {K : Type} (call : K -> M unit) (s : Shared)
        (args : list string) (workdir scriptdir : string) (watch : option string)
        (projectRoot : string) (onSuccess : K) (others : list (string * K))
        (code : exit_code) :
  let w := TypeScriptRebuilder.after call
             (TypeScriptRebuilder.RebuildRequested projectRoot onSuccess
                :: RebuilderSpec.requests_of others)
             (boot s args workdir scriptdir watch) in
  isRebuilding w = true /\
  children w = [mkChild 0 projectRoot onSuccess] /\
  invoked w = [] /\
  effects (shared w)
  = (repeat (ConsoleLog MESSAGES.REBUILD_IN_PROGRESS) (length others)
     ++ Spawn 0 "npx" ["tsc"] projectRoot
     :: ConsoleLog MESSAGES.REBUILDING :: effects s)%list /\
  invoked (snd (TypeScriptRebuilder.handle call
                  (TypeScriptRebuilder.ChildClosed 0 code) w))
  = (if TypeScriptRebuilder.is_zero code then [onSuccess] else []) /\
  isRebuilding (snd (TypeScriptRebuilder.handle call
                       (TypeScriptRebuilder.ChildClosed 0 code) w)) = false.
Proof.
  cbv zeta.
  rewrite (RebuilderMore.burst_from_idle call projectRoot onSuccess others) by reflexivity.
  split; [reflexivity|]. split; [reflexivity|]. split; [reflexivity|].
  split.
  - cbn [shared set_shared]. rewrite RebuilderMore.fold_emit_effects. reflexivity.
  - match goal with
    | |- context [TypeScriptRebuilder.handle call _ ?w0] => set (w := w0)
    end.
    assert (Hrun : TypeScriptRebuilder.handle call
                     (TypeScriptRebuilder.ChildClosed 0 code) w
                   = TypeScriptRebuilder.on_close call onSuccess code
                       (TypeScriptRebuilder.reap 0 w)).
    { reflexivity. }
    rewrite Hrun.
    destruct (RebuilderFacts.on_close_private call onSuccess code
                (TypeScriptRebuilder.reap 0 w)) as (Hidle & _ & _).
    split; [|exact Hidle].
    rewrite RebuilderMore.on_close_invoked. reflexivity.
Qed.

(** X6: along every sequence of rebuild calls and child events on a new
    coordinator, callbacks have been called at most as often as a child
    closed with code [0], and the callbacks called together with the
    rebuilds still running are at most as many as the calls of [rebuild]. *)
Theorem callbacks_never_outnumber_rebuilds
        {K : Type} (call : K -> M unit) (s : Shared)
        (args : list string) (workdir scriptdir : string) (watch : option string)
        (evs : list (TypeScriptRebuilder.event (K := K))) :
  let w := TypeScriptRebuilder.after call evs (boot s args workdir scriptdir watch) in
  length (invoked w) <= RebuilderSpec.zero_closes evs /\
  length (invoked w) + length (children w) <= RebuilderSpec.requests evs.
Proof.
  cbv zeta.
  destruct (RebuilderMore.after_accounts call evs (boot s args workdir scriptdir watch))
    as [H1 H2].
  simpl in H1, H2. split; lia.
Qed.

(** ** Loading, starting and reloading *)

Module OrchestratorMore.

Lemma bind_ext {S A B} (m : ST S A) (f g : A -> ST S B) (s : S) :
  (forall a s', f a s' = g a s') -> bind m f s = bind m g s.
Proof.
  intros H. unfold bind. destruct (m s) as [[a|e|c] s']; [apply H| |]; reflexivity.
Qed.

(** Whatever [readFileSync] and [marked] do, [loadMarkdown] ends in one of
    three ways, none of which is an exception. *)
Lemma loadMarkdown_outcome (L : Libs) (filePath : string) (s : Shared) :
  match fst (loadMarkdown L filePath s) with
  | Returned html =>
      html = MESSAGES.ERROR_LOADING_FILE \/
      exists content, fs s filePath = Some content /\
                      fst (Renderer.parseMarkdown L content s) = Returned html
  | Thrown _ => False
  | Exited code =>
      exists content, fs s filePath = Some content /\
                      fst (Renderer.parseMarkdown L content s) = Exited code
  end.
Proof.
  unfold loadMarkdown, try_catch, bind, readFileSync.
  destruct (fs s filePath) as [content|]; [|simpl; auto].
  destruct (Renderer.parseMarkdown L content s) as [[html|e|c] s'] eqn:E; simpl.
  - right. exists content. rewrite E. split; reflexivity.
  - left. reflexivity.
  - exists content. rewrite E. split; reflexivity.
Qed.

Lemma loadMarkdown_not_thrown (L : Libs) (filePath : string) (s : Shared) (e : exn) :
  fst (loadMarkdown L filePath s) <> Thrown e.
Proof.
  pose proof (loadMarkdown_outcome L filePath s) as H. intros E.
  rewrite E in H. exact H.
Qed.

Lemma initial_load_run (load : string -> M string) (path : string) (w : World Closure) :
  initial_load load path w
  = match load path (shared w) with
    | (Returned html, s') => (Returned tt, set_shared (set_currentHtmlContent html s') w)
    | (Thrown e, s') => (Thrown e, set_shared s' w)
    | (Exited c, s') => (Exited c, set_shared s' w)
    end.
Proof.
  unfold initial_load, bind. rewrite RebuilderFacts.sh_run.
  destruct (load path (shared w)) as [[html|e|c] s']; reflexivity.
Qed.

Lemma guard_is_dead (L : Libs) (path : string)
      (handler : exn -> P (K := Closure) unit) (w : World Closure) :
  try_catch (initial_load (loadMarkdown L) path) handler w
  = initial_load (loadMarkdown L) path w.
Proof.
  unfold try_catch. rewrite initial_load_run.
  pose proof (loadMarkdown_not_thrown L path (shared w)) as Hnt.
  destruct (loadMarkdown L path (shared w)) as [[html|e|c] s']; try reflexivity.
  exfalso. exact (Hnt e eq_refl).
Qed.

Lemma main_is_unguarded (L : Libs) (w : World Closure) :
  Index.main L w = main_unguarded L w.
Proof.
  unfold Index.main, main_unguarded.
  apply bind_ext. intros _ w1. apply bind_ext. intros path w2.
  unfold bind at 1 3.
  change (try_catch _ _ w2)
    with (try_catch (initial_load (loadMarkdown L) path)
            (fun error =>
               sh (console_error ("Error reading file: " ++ path)) ;;
               sh (console_error (describe error)) ;;
               process_exit 1) w2).
  rewrite guard_is_dead. reflexivity.
Qed.

Lemma getMarkdownFilePath_run (L : Libs) (w : World Closure) :
  Index.getMarkdownFilePath L w
  = match skipn 2 (argv w) with
    | [] => (Exited 1%Z,
             set_shared (emit (ConsoleLog MESSAGES.USAGE)
                              (emit (ConsoleError MESSAGES.ERROR_NO_FILE) (shared w))) w)
    | arg0 :: _ => (Returned (path_join L (cwd w) arg0), w)
    end.
Proof.
  unfold Index.getMarkdownFilePath, bind, gets.
  destruct (skipn 2 (argv w)); [|reflexivity].
  rewrite !RebuilderFacts.sh_run. simpl. destruct w; reflexivity.
Qed.

Lemma watch_and_listen_run (L : Libs) (path : string) (w : World Closure) :
  watch_and_listen L path w
  = (Returned tt,
     set_listening SERVER_CONFIG.PORT
       (if Index.watch_mode (WATCH_MODE w)
        then set_shared (emit (ConsoleLog MESSAGES.WATCH_MODE_ENABLED) (shared w))
               (set_sourceWatcher
                  (Some (path_join L (dirname w) PATHS.SRC, path_join L (dirname w) ".."))
                  (set_markdownWatcher (Some (path, RefreshContent path)) w))
        else set_markdownWatcher (Some (path, RefreshContent path)) w)).
Proof.
  unfold watch_and_listen, Index.setupFileWatching, FileWatcher.watchMarkdownFile,
    FileWatcher.watchSourceCode, bind, gets, modify. simpl.
  destruct (Index.watch_mode (WATCH_MODE w)); reflexivity.
Qed.

Lemma main_run (L : Libs) (w : World Closure) :
  Index.main L w
  = let w0 := set_shared (set_markedConfigured true (shared w)) w in
    match skipn 2 (argv w) with
    | [] => (Exited 1%Z,
             set_shared (emit (ConsoleLog MESSAGES.USAGE)
                              (emit (ConsoleError MESSAGES.ERROR_NO_FILE) (shared w0))) w0)
    | arg0 :: _ =>
        let path := path_join L (cwd w) arg0 in
        match loadMarkdown L path (shared w0) with
        | (Returned html, s') =>
            watch_and_listen L path (set_shared (set_currentHtmlContent html s') w0)
        | (Thrown e, s') => (Thrown e, set_shared s' w0)
        | (Exited c, s') => (Exited c, set_shared s' w0)
        end
    end.
Proof.
  rewrite main_is_unguarded. unfold main_unguarded.
  unfold bind at 1. rewrite RebuilderFacts.sh_run.
  change (Renderer.configureMarked (shared w))
    with (Returned tt, set_markedConfigured true (shared w)).
  cbn [fst snd]. cbv zeta.
  set (w0 := set_shared (set_markedConfigured true (shared w)) w).
  unfold bind at 1. rewrite getMarkdownFilePath_run.
  change (argv w0) with (argv w). change (cwd w0) with (cwd w).
  destruct (skipn 2 (argv w)) as [|arg0 rest]; [reflexivity|].
  change (bind (initial_load (loadMarkdown L) (path_join L (cwd w) arg0))
               (fun _ => watch_and_listen L (path_join L (cwd w) arg0)) w0
          = match loadMarkdown L (path_join L (cwd w) arg0) (shared w0) with
            | (Returned html, s') =>
                watch_and_listen L (path_join L (cwd w) arg0)
                  (set_shared (set_currentHtmlContent html s') w0)
            | (Thrown e, s') => (Thrown e, set_shared s' w0)
            | (Exited c, s') => (Exited c, set_shared s' w0)
            end).
  unfold bind. rewrite initial_load_run.
  destruct (loadMarkdown L (path_join L (cwd w) arg0) (shared w0))
    as [[html|e|c] s']; reflexivity.
Qed.
Lemma main_success (L : Libs) (w : World Closure) :
  fst (Index.main L w) = Returned tt ->
  exists arg0 rest html,
    skipn 2 (argv w) = arg0 :: rest /\
    fst (loadMarkdown L (path_join L (cwd w) arg0)
           (set_markedConfigured true (shared w))) = Returned html /\
    currentHtmlContent (shared (snd (Index.main L w))) = Some html /\
    markdownWatcher (snd (Index.main L w))
    = Some (path_join L (cwd w) arg0, RefreshContent (path_join L (cwd w) arg0)) /\
    sourceWatcher (snd (Index.main L w))
    = (if Index.watch_mode (WATCH_MODE w)
       then Some (path_join L (dirname w) "../src", path_join L (dirname w) "..")
       else sourceWatcher w) /\
    listening (snd (Index.main L w)) = Some 4002%Z /\
    isRebuilding (snd (Index.main L w)) = isRebuilding w /\
    children (snd (Index.main L w)) = children w.
Proof.
  rewrite main_run. cbv zeta.
  destruct (skipn 2 (argv w)) as [|arg0 rest]; [discriminate|].
  change (shared (set_shared (set_markedConfigured true (shared w)) w))
    with (set_markedConfigured true (shared w)).
  destruct (loadMarkdown L (path_join L (cwd w) arg0)
              (set_markedConfigured true (shared w))) as [[html|e|c] s'] eqn:E;
    [|discriminate|discriminate].
  intros _. exists arg0, rest, html.
  rewrite watch_and_listen_run. simpl.
  destruct (Index.watch_mode (WATCH_MODE w)); simpl; repeat split;
    rewrite E; reflexivity.
Qed.
End OrchestratorMore.

(** X7: whatever the file system holds and whatever [marked] does,
    [loadMarkdown] never throws: it returns what the parser returned for
    the file's text, or else the fixed error fragment; the only other way
    it can end is the parser ending the process. *)
Theorem loadMarkdown_never_throws (L : Libs) (filePath : string) (s : Shared) :
  match fst (loadMarkdown L filePath s) with
  | Returned html =>
      html = MESSAGES.ERROR_LOADING_FILE \/
      exists content, fs s filePath = Some content /\
                      fst (Renderer.parseMarkdown L content s) = Returned html
  | Thrown _ => False
  | Exited code =>
      exists content, fs s filePath = Some content /\
                      fst (Renderer.parseMarkdown L content s) = Exited code
  end.
Proof.
  apply OrchestratorMore.loadMarkdown_outcome.
Qed.

(** X8: the [catch] around the initial load in [main] never runs: for
    every process state and every behaviour of the imported packages,
    [main] does exactly what it would do with the [try]/[catch] removed. *)
Theorem main_startup_catch_never_runs (L : Libs) (w : World Closure) :
  Index.main L w = main_unguarded L w.
Proof.
  apply OrchestratorMore.main_is_unguarded.
Qed.

(** X9: started without a file argument, [main] prints the error and the
    usage line and exits with code 1; nothing has been loaded, no watcher
    is installed and the server does not listen. *)
Theorem main_exits_without_file_argument (L : Libs) (w : World Closure) :
  skipn 2 (argv w) = [] ->
  Index.main L w
  = (Exited 1%Z,
     set_shared
       (emit (ConsoleLog MESSAGES.USAGE)
             (emit (ConsoleError MESSAGES.ERROR_NO_FILE)
                   (set_markedConfigured true (shared w)))) w).
Proof.
  intros H. rewrite OrchestratorMore.main_run, H. destruct w; reflexivity.
Qed.

(** X9 at work: [node index.js] with nothing after it. *)
Lemma main_exits_without_file_argument_witness :
  skipn 2 (argv (boot (K := Closure) (fresh_shared (fun _ => None) (fun _ => false))
                      ["node"; "index.js"] "/docs" "/app/dist" None)) = [] /\
  fst (Index.main plain_libs
         (boot (fresh_shared (fun _ => None) (fun _ => false))
               ["node"; "index.js"] "/docs" "/app/dist" None))
  = Exited 1%Z.
Proof.
  split; [reflexivity|].
  exact (f_equal fst (main_exits_without_file_argument plain_libs
                        (boot (fresh_shared (fun _ => None) (fun _ => false))
                              ["node"; "index.js"] "/docs" "/app/dist" None)
                        eq_refl)).
Defined.

(** X10: whenever [main] returns, a file argument was given, the content
    cell holds what [loadMarkdown] returned for that file, the markdown
    watcher is installed on it with the reloading callback, the server
    listens on port 4002, and the source watcher is installed exactly when
    [WATCH_MODE] is the string [true]; the coordinator is untouched. *)
Theorem main_returns_with_server_ready (L : Libs) (w : World Closure) :
  fst (Index.main L w) = Returned tt ->
  exists arg0 rest html,
    skipn 2 (argv w) = arg0 :: rest /\
    fst (loadMarkdown L (path_join L (cwd w) arg0)
           (set_markedConfigured true (shared w))) = Returned html /\
    currentHtmlContent (shared (snd (Index.main L w))) = Some html /\
    markdownWatcher (snd (Index.main L w))
    = Some (path_join L (cwd w) arg0, RefreshContent (path_join L (cwd w) arg0)) /\
    sourceWatcher (snd (Index.main L w))
    = (if Index.watch_mode (WATCH_MODE w)
       then Some (path_join L (dirname w) "../src", path_join L (dirname w) "..")
       else sourceWatcher w) /\
    listening (snd (Index.main L w)) = Some 4002%Z /\
    isRebuilding (snd (Index.main L w)) = isRebuilding w /\
    children (snd (Index.main L w)) = children w.
Proof.
  apply OrchestratorMore.main_success.
Qed.

(** X10 at work: [node index.js notes.md] with a readable file. *)
Lemma main_returns_with_server_ready_witness :
  fst (Index.main plain_libs readable_boot) = Returned tt /\
  exists arg0 rest html,
    skipn 2 (argv readable_boot) = arg0 :: rest /\
    currentHtmlContent (shared (snd (Index.main plain_libs readable_boot))) = Some html.
Proof.
  split; [reflexivity|].
  destruct (main_returns_with_server_ready plain_libs readable_boot eq_refl)
    as (arg0 & rest & html & Hargs & _ & Hcontent & _).
  exists arg0, rest, html. split; [exact Hargs|exact Hcontent].
Defined.

(** X11: after a start with [WATCH_MODE] other than the string [true] (and
    no source watcher before), no change in the source tree does anything:
    nothing is logged and no rebuild starts. *)
Theorem source_changes_are_unwatched_without_watch_mode
        (L : Libs) (w : World Closure) (path : string) :
  fst (Index.main L w) = Returned tt ->
  sourceWatcher w = None ->
  WATCH_MODE w <> Some "true" ->
  FileWatcher.source_tree_changed path (snd (Index.main L w))
  = (Returned tt, snd (Index.main L w)).
Proof.
  intros Hret Hnone Hmode.
  assert (Hoff : Index.watch_mode (WATCH_MODE w) = false).
  { unfold Index.watch_mode. destruct (WATCH_MODE w) as [v|]; [|reflexivity].
    destruct (String.eqb_spec v "true") as [E|_]; [|reflexivity].
    exfalso. apply Hmode. rewrite E. reflexivity. }
  destruct (OrchestratorMore.main_success L w Hret)
    as (arg0 & rest & html & _ & _ & _ & _ & Hsw & _).
  unfold FileWatcher.source_tree_changed, bind, gets.
  rewrite Hsw, Hoff, Hnone. reflexivity.
Qed.

(** X11 at work: [readable_boot] is started without [WATCH_MODE]. *)
Lemma source_changes_are_unwatched_without_watch_mode_witness :
  fst (Index.main plain_libs readable_boot) = Returned tt /\
  sourceWatcher readable_boot = None /\
  WATCH_MODE readable_boot <> Some "true" /\
  FileWatcher.source_tree_changed "/app/src/index.ts"
    (snd (Index.main plain_libs readable_boot))
  = (Returned tt, snd (Index.main plain_libs readable_boot)).
Proof.
  assert (Hmode : WATCH_MODE readable_boot <> Some "true") by discriminate.
  split; [reflexivity|]. split; [reflexivity|]. split; [exact Hmode|].
  exact (source_changes_are_unwatched_without_watch_mode
           plain_libs readable_boot "/app/src/index.ts" eq_refl eq_refl Hmode).
Defined.

(** X12: at a change event that finds the content file readable and its
    text rendered to [html], the change is logged, the callback is called
    once, the content cell is overwritten with [html], and then the reload
    broadcast goes out from that state. *)
Theorem changed_content_is_rendered_then_broadcast
        (L : Libs) (w : World Closure) (filePath content html : string)
        (rendered : Shared)
        (Hwatched : markdownWatcher w = Some (filePath, RefreshContent filePath))
        (Hreadable : fs (shared w) filePath = Some content)
        (Hrendered :
           Renderer.parseMarkdown L content
             (emit (ConsoleLog (MESSAGES.FILE_CHANGED_PREFIX ++ filePath)) (shared w))
           = (Returned html, rendered)) :
  FileWatcher.markdown_file_changed L w
  = (fst (ClientManager.notifyReload (set_currentHtmlContent html rendered)),
     set_shared (snd (ClientManager.notifyReload (set_currentHtmlContent html rendered)))
                (record_call (RefreshContent filePath) w)) /\
  currentHtmlContent (shared (snd (FileWatcher.markdown_file_changed L w))) = Some html /\
  invoked (snd (FileWatcher.markdown_file_changed L w))
  = RefreshContent filePath :: invoked w.
Proof.
  assert (Hrun : FileWatcher.markdown_file_changed L w
                 = (fst (ClientManager.notifyReload (set_currentHtmlContent html rendered)),
                    set_shared (snd (ClientManager.notifyReload
                                       (set_currentHtmlContent html rendered)))
                               (record_call (RefreshContent filePath) w))).
  { unfold FileWatcher.markdown_file_changed, bind, gets. rewrite Hwatched.
    unfold FileWatcher.on_markdown_change, bind.
    rewrite RebuilderFacts.sh_run. cbn [fst snd console_log modify].
    rewrite RebuilderFacts.invoke_run.
    change (shared (record_call (RefreshContent filePath)
                      (set_shared (emit (ConsoleLog (MESSAGES.FILE_CHANGED_PREFIX ++ filePath))
                                        (shared w)) w)))
      with (emit (ConsoleLog (MESSAGES.FILE_CHANGED_PREFIX ++ filePath)) (shared w)).
    assert (Hcall : call_closure L (RefreshContent filePath)
                      (emit (ConsoleLog (MESSAGES.FILE_CHANGED_PREFIX ++ filePath)) (shared w))
                    = (Returned tt, set_currentHtmlContent html rendered)).
    { unfold call_closure, bind, loadMarkdown, try_catch, bind, readFileSync.
      change (fs (emit (ConsoleLog (MESSAGES.FILE_CHANGED_PREFIX ++ filePath)) (shared w)))
        with (fs (shared w)).
      rewrite Hreadable, Hrendered. reflexivity. }
    change (shared (set_shared (emit (ConsoleLog (MESSAGES.FILE_CHANGED_PREFIX ++ filePath))
                                     (shared w)) w))
      with (emit (ConsoleLog (MESSAGES.FILE_CHANGED_PREFIX ++ filePath)) (shared w)).
    rewrite Hcall. cbn [fst snd].
    rewrite RebuilderFacts.sh_run. reflexivity. }
  rewrite Hrun. split; [reflexivity|]. cbn [snd].
  destruct (BroadcastFacts.notifyReload_frame (set_currentHtmlContent html rendered))
    as [_ Hcontent].
  split; [|reflexivity].
  simpl. rewrite Hcontent. reflexivity.
Qed.

(** X12 at work: the file edited from [# Hello] to [# Goodbye]. *)
Lemma changed_content_is_rendered_then_broadcast_witness :
  markdownWatcher viewing_edited_file
  = Some ("/docs/notes.md", RefreshContent "/docs/notes.md") /\
  fs (shared viewing_edited_file) "/docs/notes.md" = Some "# Goodbye" /\
  currentHtmlContent
    (shared (snd (FileWatcher.markdown_file_changed plain_libs viewing_edited_file)))
  = Some "<p># Goodbye</p>".
Proof.
  split; [reflexivity|]. split; [reflexivity|].
  exact (proj1 (proj2 (changed_content_is_rendered_then_broadcast
                         plain_libs viewing_edited_file "/docs/notes.md"
                         "# Goodbye" "<p># Goodbye</p>"
                         (emit (ConsoleLog (MESSAGES.FILE_CHANGED_PREFIX ++ "/docs/notes.md"))
                               (shared viewing_edited_file))
                         eq_refl eq_refl eq_refl))).
Defined.

(** X13: a change of a [.ts] or [.js] path reaching the listener while the
    coordinator is at rest is logged and spawns [npx tsc] in the project
    root; when that child closes with code [0] the reload broadcast goes
    out, and when it closes with any other code the only effect is the
    line reporting the failure, no channel being written to.  Either way
    the coordinator is at rest again. *)
Theorem source_change_reloads_only_after_successful_build
        (L : Libs) (w : World Closure) (projectRoot path : string) (code : exit_code)
        (Hidle : isRebuilding w = false)
        (Hnone : children w = [])
        (Hsource : FileWatcher.is_source_path path = true) :
  let w1 := snd (FileWatcher.on_source_change projectRoot path w) in
  let r := TypeScriptRebuilder.handle (call_closure L)
             (TypeScriptRebuilder.ChildClosed (nextPid w) code) w1 in
  let announced :=
    emit (Spawn (nextPid w) "npx" ["tsc"] projectRoot)
         (emit (ConsoleLog MESSAGES.REBUILDING)
               (emit (ConsoleLog (MESSAGES.SOURCE_CHANGED_PREFIX ++ path)) (shared w))) in
  shared w1 = announced /\
  isRebuilding w1 = true /\
  children w1 = [mkChild (nextPid w) projectRoot ReloadAfterRebuild] /\
  isRebuilding (snd r) = false /\
  children (snd r) = [] /\
  if TypeScriptRebuilder.is_zero code
  then fst r = fst (ClientManager.notifyReload
                      (emit (ConsoleLog MESSAGES.REBUILD_COMPLETE) announced)) /\
       shared (snd r) = snd (ClientManager.notifyReload
                               (emit (ConsoleLog MESSAGES.REBUILD_COMPLETE) announced))
  else fst r = Returned tt /\
       shared (snd r)
       = emit (ConsoleLog (MESSAGES.REBUILD_FAILED_PREFIX ++ show_code code)) announced.
Proof.
  destruct w as [s0 flag running next called mdw srcw port args here dir watch].
  simpl in Hidle, Hnone. subst flag running.
  cbv zeta. unfold FileWatcher.on_source_change. rewrite Hsource.
  unfold bind. rewrite RebuilderFacts.sh_run. cbn [fst snd console_log modify].
  rewrite RebuilderFacts.rebuild_run. cbn [snd]. simpl isRebuilding. cbv iota.
  unfold RebuilderSpec.started. simpl.
  unfold bind, gets, TypeScriptRebuilder.running. simpl. rewrite Nat.eqb_refl.
  unfold modify, TypeScriptRebuilder.reap. simpl. rewrite Nat.eqb_refl. simpl.
  rewrite RebuilderFacts.on_close_run.
  destruct (TypeScriptRebuilder.is_zero code).
  - rewrite RebuilderFacts.invoke_run. simpl. repeat split.
  - simpl. repeat split.
Qed.

(** X13 at work: [config.ts] changes while nothing is being rebuilt, and
    the compiler then reports an error. *)
Lemma source_change_reloads_only_after_successful_build_witness :
  isRebuilding watching_sources = false /\
  children watching_sources = [] /\
  FileWatcher.is_source_path "/app/src/config.ts" = true /\
  isRebuilding
    (snd (TypeScriptRebuilder.handle (call_closure plain_libs)
            (TypeScriptRebuilder.ChildClosed (nextPid watching_sources) (Some 2%Z))
            (snd (FileWatcher.on_source_change "/app" "/app/src/config.ts"
                    watching_sources)))) = false.
Proof.
  split; [reflexivity|]. split; [reflexivity|]. split; [reflexivity|].
  exact (proj1 (proj2 (proj2 (proj2
           (source_change_reloads_only_after_successful_build
              plain_libs watching_sources "/app" "/app/src/config.ts" (Some 2%Z)
              eq_refl eq_refl eq_refl))))).
Defined.

(** ** The [ignored] pattern *)

Module IgnoredMore.
Import FILE_WATCHER_OPTIONS.

Lemma append_assoc (a b c : string) : (a ++ b) ++ c = a ++ b ++ c.
Proof. induction a as [|x a IH]; simpl; [reflexivity|]. rewrite IH. reflexivity. Qed.

Lemma dot_any_inv (s : string) :
  dot_any s = true ->
  exists name, s = "." ++ name /\ name <> "" /\
               starts_with_line_terminator name = false.
Proof.
  destruct s as [|c rest]; simpl; [discriminate|].
  intros H. apply andb_true_iff in H. destruct H as [Hc Hrest].
  apply Ascii.eqb_eq in Hc. subst c.
  destruct rest as [|c1 rest]; [discriminate|].
  exists (String c1 rest). split; [reflexivity|]. split; [discriminate|].
  apply negb_true_iff in Hrest. exact Hrest.
Qed.

Lemma ignored_from_inv (s : string) (b : bool) :
  ignored_from b s = true ->
  (b = true /\ dot_any s = true) \/
  exists dir sep rest,
    s = dir ++ String sep rest /\ is_separator sep = true /\ dot_any rest = true.
Proof.
  revert b. induction s as [|c s IH]; intros b; simpl.
  - rewrite orb_false_r, andb_false_r. discriminate.
  - intros H. apply orb_true_iff in H. destruct H as [H|H].
    + left. apply andb_true_iff in H. exact H.
    + right. destruct (IH _ H) as [[Hsep Hdot]|(dir & sep & rest & Hs & Hsep & Hdot)].
      * exists "", c, s. auto.
      * exists (String c dir), sep, rest. subst s. auto.
Qed.

(** A name that does not begin with a line terminator still does not when
    a slash and more text follow it. *)
Lemma line_terminator_before_slash (name rest : string) :
  name <> "" ->
  starts_with_line_terminator name = false ->
  starts_with_line_terminator (name ++ String "/" rest) = false.
Proof.
  intros Hne H. destruct name as [|c [|c1 [|c2 tail]]]; [congruence| | |exact H];
    simpl in *; apply orb_false_iff in H; destruct H as [H _]; rewrite H; simpl.
  - destruct rest; [reflexivity|]. rewrite andb_false_r. reflexivity.
  - rewrite andb_false_r. reflexivity.
Qed.

Lemma ignored_spec (path : string) :
  ignored path = true <->
  exists before name,
    path = before ++ "." ++ name /\
    (before = "" \/ exists dir sep, before = dir ++ String sep "" /\
                                    is_separator sep = true) /\
    name <> "" /\
    starts_with_line_terminator name = false.
Proof.
  unfold ignored. split.
  - intros H. destruct (ignored_from_inv _ _ H)
      as [[_ Hdot]|(dir & sep & rest & Hs & Hsep & Hdot)];
      destruct (dot_any_inv _ Hdot) as (name & Hn & Hne & Hlt).
    + exists "", name. subst path. auto.
    + exists (dir ++ String sep ""), name. subst path rest.
      rewrite append_assoc. split; [reflexivity|]. split; [|auto].
      right. exists dir, sep. auto.
  - intros (before & name & Hp & Hb & Hne & Hlt).
    pose proof (StringFacts.dot_any_dotfile name Hne Hlt) as Hdot.
    destruct Hb as [->|(dir & sep & -> & Hsep)]; subst path.
    + apply StringFacts.ignored_from_head. exact Hdot.
    + rewrite append_assoc. apply StringFacts.ignored_from_later; assumption.
Qed.

Lemma ignored_below (dir rel : string) :
  ignored dir = true -> ignored (dir ++ "/" ++ rel) = true.
Proof.
  intros H. apply ignored_spec in H.
  destruct H as (before & name & Hp & Hb & Hne & Hlt).
  apply ignored_spec. exists before, (name ++ "/" ++ rel).
  split; [subst dir; rewrite !append_assoc; reflexivity|].
  split; [exact Hb|]. split.
  - destruct name; [congruence|discriminate].
  - apply line_terminator_before_slash; assumption.
Qed.
End IgnoredMore.

(** X14: the [ignored] pattern matches exactly the paths in which, at the
    very start or right after a [/] or a [\], there is a dot followed by at
    least one character that is not a line terminator; a path none of
    whose components begins with a dot is never held back. *)
Theorem ignored_matches_exactly_dot_components (path : string) :
  FILE_WATCHER_OPTIONS.ignored path = true <->
  exists before name,
    path = before ++ "." ++ name /\
    (before = "" \/
     exists dir sep, before = dir ++ String sep "" /\
                     FILE_WATCHER_OPTIONS.is_separator sep = true) /\
    name <> "" /\
    FILE_WATCHER_OPTIONS.starts_with_line_terminator name = false.
Proof.
  apply IgnoredMore.ignored_spec.
Qed.

(** X15: when the watched source directory itself has, anywhere in its
    path, a component beginning with a dot, the pattern matches every path
    below it: no change in the tree reaches the listener and no rebuild is
    ever started. *)
Theorem sources_below_a_dot_directory_are_never_rebuilt
        (srcPath rel : string) (w : World Closure) :
  FILE_WATCHER_OPTIONS.ignored srcPath = true ->
  FileWatcher.source_tree_changed (srcPath ++ "/" ++ rel) w = (Returned tt, w).
Proof.
  intros H. unfold FileWatcher.source_tree_changed, bind, gets.
  destruct (sourceWatcher w) as [[src root]|]; [|reflexivity].
  rewrite (IgnoredMore.ignored_below srcPath rel H). reflexivity.
Qed.

(** X15 at work: the tool installed below [.nvm] in a home directory. *)
Lemma sources_below_a_dot_directory_are_never_rebuilt_witness :
  FILE_WATCHER_OPTIONS.ignored "/home/dev/.nvm/lib/node_modules/preview/src" = true /\
  FileWatcher.source_tree_changed
    ("/home/dev/.nvm/lib/node_modules/preview/src" ++ "/" ++ "index.ts")
    (set_sourceWatcher
       (Some ("/home/dev/.nvm/lib/node_modules/preview/src",
              "/home/dev/.nvm/lib/node_modules/preview")) sample_boot)
  = (Returned tt,
     set_sourceWatcher
       (Some ("/home/dev/.nvm/lib/node_modules/preview/src",
              "/home/dev/.nvm/lib/node_modules/preview")) sample_boot).
Proof.
  split; [reflexivity|].
  exact (sources_below_a_dot_directory_are_never_rebuilt
           "/home/dev/.nvm/lib/node_modules/preview/src" "index.ts" _ eq_refl).
Defined.

(** ** The code renderer besides diagrams *)

(** X16: for a language that is not [mermaid] and that [highlight.js]
    knows, a failure of the highlighter does not escape the renderer: the
    error is logged and the block is rendered by the original renderer of
    [marked], from the state the failure left. *)
Theorem highlight_failure_falls_back_to_original_renderer
        (L : Libs) (code language : string) (isEscaped : bool)
        (s failed : Shared) (e : exn) :
  language <> "mermaid" ->
  language <> "" ->
  hljs_getLanguage L language = true ->
  hljs_highlight L code language s = (Thrown e, failed) ->
  Renderer.code L code (Some language) isEscaped s
  = originalCodeRenderer L code (Some language) isEscaped
      (emit (ConsoleError ("Highlight error: " ++ describe e)) failed).
Proof.
  intros Hm Hne Hknown Hfail. unfold Renderer.code, Renderer.is_mermaid.
  destruct (String.eqb_spec language "mermaid") as [E|_]; [contradiction|].
  destruct (String.eqb_spec language "") as [E|_]; [contradiction|].
  rewrite Hknown. simpl. unfold try_catch, bind. rewrite Hfail.
  reflexivity.
Qed.

(** X16 at work: a [ts] block with a highlighter that always fails. *)
Lemma highlight_failure_falls_back_to_original_renderer_witness :
  "ts" <> "mermaid" /\ "ts" <> "" /\
  hljs_getLanguage failing_highlight_libs "ts" = true /\
  fst (Renderer.code failing_highlight_libs "let x = 1;" (Some "ts") false
         (fresh_shared (fun _ => None) (fun _ => false)))
  = Returned "<pre><code>let x = 1;</code></pre>".
Proof.
  assert (H1 : "ts" <> "mermaid") by discriminate.
  assert (H2 : "ts" <> "") by discriminate.
  split; [exact H1|]. split; [exact H2|]. split; [reflexivity|].
  exact (f_equal fst
           (highlight_failure_falls_back_to_original_renderer
              failing_highlight_libs "let x = 1;" "ts" false
              (fresh_shared (fun _ => None) (fun _ => false))
              (fresh_shared (fun _ => None) (fun _ => false))
              (LibraryFailed "Unknown language") H1 H2 eq_refl eq_refl)).
Defined.

(** ** The served page *)

Module PageMore.

Lemma append_inv_head (p a b : string) : p ++ a = p ++ b -> a = b.
Proof.
  induction p as [|c p IH]; simpl; intros H; [exact H|].
  injection H as H. exact (IH H).
Qed.

Lemma append_inv_tail (t a b : string) : a ++ t = b ++ t -> a = b.
Proof.
  revert b. induction a as [|c a IH]; intros b H.
  - destruct b as [|d b]; [reflexivity|]. exfalso.
    apply (f_equal String.length) in H. simpl in H.
    rewrite StringFacts.length_append in H. lia.
  - destruct b as [|d b].
    + exfalso. apply (f_equal String.length) in H. simpl in H.
      rewrite StringFacts.length_append in H. lia.
    + simpl in H. injection H as Hc H. subst d. f_equal. exact (IH _ H).
Qed.

Lemma shape_prefix (p : string) (f : string -> string) :
  (exists before after, forall c, f c = before ++ c ++ after) ->
  exists before after, forall c, p ++ f c = before ++ c ++ after.
Proof.
  intros (b & a & H). exists (p ++ b), a. intros c.
  rewrite H, IgnoredMore.append_assoc. reflexivity.
Qed.

Lemma shape_suffix (q : string) (f : string -> string) :
  (exists before after, forall c, f c = before ++ c ++ after) ->
  exists before after, forall c, f c ++ q = before ++ c ++ after.
Proof.
  intros (b & a & H). exists b, (a ++ q). intros c.
  rewrite H, !IgnoredMore.append_assoc. reflexivity.
Qed.

Lemma shape_hole (q : string) :
  exists before after, forall c : string, c ++ q = before ++ c ++ after.
Proof. exists "", q. reflexivity. Qed.

(** The page is the content between two texts that do not depend on it. *)
Lemma template_shape :
  exists before after,
    forall content,
      HtmlGenerator.generateHtmlTemplate content = before ++ content ++ after.
Proof.
  unfold HtmlGenerator.generateHtmlTemplate, HtmlGenerator.generateBody.
  repeat match goal with
         | |- exists before after, forall c, c ++ ?q = _ => apply (shape_hole q)
         | |- exists before after, forall c, ?p ++ @?f c = _ => apply (shape_prefix p f)
         | |- exists before after, forall c, @?f c ++ ?q = _ => apply (shape_suffix q f)
         end.
Qed.
End PageMore.

(** X17: the page served for a content is that content, character for
    character and unescaped, between a head and a tail that do not depend
    on it; the handler of [GET /] serves this page for the current content
    (the text [undefined] while nothing is assigned) and changes nothing;
    and two contents give the same page only if they are the same. *)
Theorem served_page_embeds_content_verbatim :
  exists before after,
    (forall content,
        HtmlGenerator.generateHtmlTemplate content = before ++ content ++ after) /\
    (forall w,
        Routes.root_route w
        = (Returned (before ++ Routes.interpolate (currentHtmlContent (shared w))
                     ++ after), w)) /\
    (forall a b,
        HtmlGenerator.generateHtmlTemplate a = HtmlGenerator.generateHtmlTemplate b
        <-> a = b).
Proof.
  destruct PageMore.template_shape as (before & after & Hshape).
  exists before, after. split; [exact Hshape|]. split.
  - intros w. unfold Routes.root_route, bind, gets, ret. rewrite Hshape. reflexivity.
  - intros a b. split; [|intros ->; reflexivity].
    rewrite !Hshape. intros H.
    apply PageMore.append_inv_head in H. apply PageMore.append_inv_tail in H. exact H.
Qed.

(** ** What a change of the content can throw *)

Module ChangeMore.

Lemma notifyReload_thrown (s : Shared) (e : exn) :
  fst (ClientManager.notifyReload s) = Thrown e ->
  exists c, e = WriteFailed c /\ In c (clients s) /\ write_throws s c = true.
Proof.
  rewrite BroadcastFacts.notifyReload_run. cbn [fst].
  destruct (find (write_throws s) (clients s)) as [c|] eqn:Hf; [|discriminate].
  intros H. injection H as <-. exists c.
  destruct (find_some _ _ Hf) as [Hin Ht]. auto.
Qed.

Lemma closure_thrown (L : Libs) (k : Closure) (s : Shared) (e : exn) :
  fst (call_closure L k s) = Thrown e -> exists c, e = WriteFailed c.
Proof.
  destruct k as [|path]; simpl.
  - intros H. destruct (notifyReload_thrown s e H) as (c & Hc & _). exists c. exact Hc.
  - unfold bind. pose proof (OrchestratorMore.loadMarkdown_not_thrown L path s) as Hnt.
    destruct (loadMarkdown L path s) as [[html|e'|c] s']; simpl; try discriminate.
    exfalso. exact (Hnt e' eq_refl).
Qed.
Lemma on_markdown_change_run (L : Libs) (k : Closure) (path : string)
      (w : World Closure) :
  FileWatcher.on_markdown_change L k path w
  = match call_closure L k
            (emit (ConsoleLog (MESSAGES.FILE_CHANGED_PREFIX ++ path)) (shared w)) with
    | (Returned _, s2) =>
        (fst (ClientManager.notifyReload s2),
         set_shared (snd (ClientManager.notifyReload s2)) (record_call k w))
    | (Thrown e, s2) => (Thrown e, set_shared s2 (record_call k w))
    | (Exited c, s2) => (Exited c, set_shared s2 (record_call k w))
    end.
Proof.
  unfold FileWatcher.on_markdown_change, invoke, console_log.
  generalize (call_closure L k). intros f.
  generalize (ConsoleLog (MESSAGES.FILE_CHANGED_PREFIX ++ path)). intros line.
  unfold bind, sh, lift, modify. simpl.
  destruct (f (emit line (shared w))) as [[[]|e|c] s2]; simpl; try reflexivity.
  destruct (ClientManager.notifyReload s2); reflexivity.
Qed.
End ChangeMore.

(** X18: the only exception a change event of the content file can end
    with is the failed write of a channel during the broadcast: reading,
    rendering and replacing the content never throw. *)
Theorem markdown_change_throws_only_failed_writes
        (L : Libs) (w : World Closure) (e : exn) :
  fst (FileWatcher.markdown_file_changed L w) = Thrown e ->
  exists channel, e = WriteFailed channel.
Proof.
  unfold FileWatcher.markdown_file_changed, bind, gets.
  destruct (markdownWatcher w) as [[filePath onChange]|]; [|discriminate].
  rewrite ChangeMore.on_markdown_change_run.
  destruct (call_closure L onChange
              (emit (ConsoleLog (MESSAGES.FILE_CHANGED_PREFIX ++ filePath)) (shared w)))
    as [[[]|e'|c] s'] eqn:Hcall; cbn [fst snd].
  - intros H. destruct (ChangeMore.notifyReload_thrown _ _ H) as (c & Hc & _).
    exists c. exact Hc.
  - intros H. injection H as <-.
    apply (ChangeMore.closure_thrown L onChange
             (emit (ConsoleLog (MESSAGES.FILE_CHANGED_PREFIX ++ filePath)) (shared w)) e').
    rewrite Hcall. reflexivity.
  - discriminate.
Qed.

(** X18 at work: the file edited while the only channel is broken. *)
Lemma markdown_change_throws_only_failed_writes_witness :
  fst (FileWatcher.markdown_file_changed plain_libs viewing_through_broken_channel)
  = Thrown (WriteFailed 1) /\
  exists channel, WriteFailed 1 = WriteFailed channel.
Proof.
  split; [reflexivity|].
  exact (markdown_change_throws_only_failed_writes
           plain_libs viewing_through_broken_channel (WriteFailed 1) eq_refl).
Defined.
